(** * k8s-event-tailer: the event watcher, its handlers and its stats reporter

    A shallow embedding of
    - [src/cmd/k8s-event-tailer/eventwatcher.go] (the watcher with
      [isOldEvent], followed by [main] and the web server), and
    - [src/unnamed/part_001] (the revision of the watcher that carries
      [runStatsPrint] and tests staleness inline in each handler),
    with the properties of the specification proved about them.

    Integers are [Z] with Go's wrap-around written out, the informer store is
    a finite map from object keys to events, and the effects of a handler
    (log records, counters, store calls, panics) are threaded through a small
    state-and-panic monad. *)

From Stdlib Require Import ZArith Lia Bool List String.
From Stdlib Require Import Ascii Decimal DecimalString DecimalPos DecimalZ.
From stdpp Require Import base option gmap strings list.
Import ListNotations.

Local Open Scope string_scope.
Local Open Scope list_scope.
Local Open Scope Z_scope.

(** ** Machine integers *)

Definition wrap32 (z : Z) : Z := (z + 2 ^ 31) mod 2 ^ 32 - 2 ^ 31.
Definition wrap64 (z : Z) : Z := (z + 2 ^ 63) mod 2 ^ 64 - 2 ^ 63.

Definition MaxInt32 : Z := 2 ^ 31 - 1.
Definition MinInt32 : Z := - 2 ^ 31.

Definition is_int32 (z : Z) : Prop := MinInt32 <= z <= MaxInt32.

(** [a + b] and [a - b] on [int32] operands. *)
Definition add32 (a b : Z) : Z := wrap32 (a + b).
Definition sub32 (a b : Z) : Z := wrap32 (a - b).

(** ** Package [time], as far as the watcher uses it

    A [Time] is a wall-clock instant: seconds, nanoseconds within the second,
    and a location that only matters for printing.  Every [Time] that reaches
    [After] or [Sub] in the watcher has gone through [UTC] first or was
    decoded from the API, so none of them carries a monotonic reading. *)
Module time.

Definition Duration : Type := Z.

Definition Nanosecond : Duration := 1.
Definition Second : Duration := 1000000000 * Nanosecond.
Definition Minute : Duration := 60 * Second.

Definition minDuration : Duration := - 2 ^ 63.
Definition maxDuration : Duration := 2 ^ 63 - 1.

Inductive Location : Type :=
| utcLoc
| localLoc
| fixedZone (offset : Z).

Record Time : Type := mkTime {
  sec : Z;
  nsec : Z;
  loc : Location
}.

(** [nsec] stays within the second. *)
Definition wf (t : Time) : Prop := 0 <= nsec t < 1000000000.

(** The instant in nanoseconds; not a Go function, the yardstick the
    properties are stated with. *)
Definition instant (t : Time) : Z := sec t * 1000000000 + nsec t.

Definition UTC (t : Time) : Time :=
  {| sec := sec t; nsec := nsec t; loc := utcLoc |}.

Definition After (t u : Time) : bool :=
  (sec t >? sec u) || ((sec t =? sec u) && (nsec t >? nsec u)).

Definition Before (t u : Time) : bool :=
  (sec t <? sec u) || ((sec t =? sec u) && (nsec t <? nsec u)).

Definition Equal (t u : Time) : bool :=
  (sec t =? sec u) && (nsec t =? nsec u).

(** [t.Sub(u)]: the duration [t-u], and the maximum (or minimum) duration
    when [t-u] does not fit one. *)
Definition Sub (t u : Time) : Duration :=
  let d := instant t - instant u in
  if d <? minDuration then minDuration
  else if maxDuration <? d then maxDuration
  else d.

Definition lessThanHalf (x y : Duration) : bool := x + x <? y.

(** [d.Round(m)]: to the nearest multiple of [m], halves away from zero. *)
Definition Round (d m : Duration) : Duration :=
  if m <=? 0 then d
  else
    let r := Z.rem d m in
    if d <? 0 then
      let r := - r in
      if lessThanHalf r m then wrap64 (d + r)
      else
        let d1 := wrap64 (d - m + r) in
        if d1 <? d then d1 else minDuration
    else
      if lessThanHalf r m then wrap64 (d - r)
      else
        let d1 := wrap64 (d + m - r) in
        if d1 >? d then d1 else maxDuration.

End time.

(** ** Events and objects *)

(** The fields of [corev1.Event] the watcher reads. *)
Record Event : Type := mkEvent {
  Namespace : string;
  Name : string;
  ResourceVersion : string;
  Message : string;
  LastTimestamp : time.Time;
  Count : Z
}.

(** What arrives as [obj interface{}]: a pointer to a [corev1.Event], or a value of
    another dynamic type (named by [dynType]). *)
Inductive Obj : Type :=
| ObjEvent (e : Event)
| ObjOther (dynType : string).

(** ** The log stream *)

Inductive Level : Type := InfoLevel | WarnLevel | ErrorLevel.

Inductive Field : Type :=
| Str (key val : string)
| Int32 (key : string) (val : Z)
| TimeRFC3339 (key : string) (val : time.Time)
| Dur (key : string) (val : time.Duration)
| Err (val : string).

(** One record: level, the logger's component, the fields, the message (for
    [Msgf], the format) and the arguments of the format. *)
Record LogRecord : Type := mkLog {
  level : Level;
  component : string;
  fields : list Field;
  msg : string;
  args : list Z
}.

(** ** The watcher *)

Definition oldEventAgeMinutes : Z := 5.

(** Calls made on [cache.Store], in order. *)
Inductive StoreCall : Type :=
| CallDelete (obj : Obj)
| CallListKeys.

(** [EventWatcher].  [client], [_controller] and the gauges are left out;
    [statsIntervalSeconds] is the field of part_001 that [main] sets.  A
    Prometheus counter is the number it shows. *)
Record EventWatcher : Type := mkEventWatcher {
  namespace : string;
  statsIntervalSeconds : Z;
  logger : string;
  _startTime : time.Time;
  _store : gmap string Event;
  addCounter : Z;
  updateCounter : Z;
  deleteCounter : Z;
  oldEventsCounter : Z
}.

(** src/cmd/k8s-event-tailer/eventwatcher.go, [isOldEvent]. *)
Definition isOldEvent (ew : EventWatcher) (event : Event) : bool :=
  (* events after app startup time are eligible *)
  if time.After (time.UTC (LastTimestamp event)) (_startTime ew) then false
  else
    (* for events before start time, they need to be within threshold *)
    time.Sub (time.UTC (_startTime ew)) (time.UTC (LastTimestamp event))
      >? oldEventAgeMinutes * time.Minute.

(** ** The process state and the effects of a handler *)

(** Package-level variables of [main]. *)
Module pkg.
Record Vars : Type := mkVars {
  addCounter : Z;
  updateCounter : Z;
  deleteCounter : Z
}.
End pkg.

(** The ticker of the stats reporter: none made yet, running or stopped, and
    whether a tick waits in its channel (which holds at most one). *)
Inductive Ticker : Type :=
| NoTicker
| Ticking (pending : bool)
| Stopped (pending : bool).

(** Everything a handler or the stats reporter can read or change: the wall
    clock, the package-level [int32] counters, the watcher, the log stream,
    the calls made on the store so far, the reporter's ticker and whether
    [stopChan] is closed. *)
Record World : Type := mkWorld {
  now : time.Time;
  vars : pkg.Vars;
  ew : EventWatcher;
  output : list LogRecord;
  storeCalls : list StoreCall;
  ticker : Ticker;
  stopChan : bool
}.

Inductive Outcome (A : Type) : Type :=
| Done (a : A) (w : World)
| Panic (reason : string) (w : World).
Arguments Done {A} a w.
Arguments Panic {A} reason w.

Definition Go (A : Type) : Type := World -> Outcome A.

Definition ret {A} (a : A) : Go A := fun w => Done a w.

Definition bind {A B} (c : Go A) (k : A -> Go B) : Go B :=
  fun w =>
    match c w with
    | Done a w' => k a w'
    | Panic r w' => Panic r w'
    end.

Notation "x <- c ;; k" := (bind c (fun x => k))
  (at level 100, c at next level, right associativity).
Notation "c ;; k" := (bind c (fun _ => k))
  (at level 100, right associativity).

Definition gets {A} (f : World -> A) : Go A := fun w => Done (f w) w.
Definition modify (f : World -> World) : Go unit := fun w => Done tt (f w).
Definition panic {A} (reason : string) : Go A := fun w => Panic reason w.

Definition set_vars (v : pkg.Vars) (w : World) : World :=
  {| now := now w; vars := v; ew := ew w; output := output w;
     storeCalls := storeCalls w; ticker := ticker w; stopChan := stopChan w |}.

Definition set_ew (e : EventWatcher) (w : World) : World :=
  {| now := now w; vars := vars w; ew := e; output := output w;
     storeCalls := storeCalls w; ticker := ticker w; stopChan := stopChan w |}.

Definition set_now (t : time.Time) (w : World) : World :=
  {| now := t; vars := vars w; ew := ew w; output := output w;
     storeCalls := storeCalls w; ticker := ticker w; stopChan := stopChan w |}.

Definition write_log (r : LogRecord) (w : World) : World :=
  {| now := now w; vars := vars w; ew := ew w; output := output w ++ [r];
     storeCalls := storeCalls w; ticker := ticker w; stopChan := stopChan w |}.

Definition record_call (c : StoreCall) (w : World) : World :=
  {| now := now w; vars := vars w; ew := ew w; output := output w;
     storeCalls := storeCalls w ++ [c]; ticker := ticker w; stopChan := stopChan w |}.

Definition set_ticker (t : Ticker) (w : World) : World :=
  {| now := now w; vars := vars w; ew := ew w; output := output w;
     storeCalls := storeCalls w; ticker := t; stopChan := stopChan w |}.

Definition close_stopChan (w : World) : World :=
  {| now := now w; vars := vars w; ew := ew w; output := output w;
     storeCalls := storeCalls w; ticker := ticker w; stopChan := true |}.

Definition set_store (s : gmap string Event) (e : EventWatcher) : EventWatcher :=
  {| namespace := namespace e; statsIntervalSeconds := statsIntervalSeconds e;
     logger := logger e; _startTime := _startTime e; _store := s;
     addCounter := addCounter e; updateCounter := updateCounter e;
     deleteCounter := deleteCounter e; oldEventsCounter := oldEventsCounter e |}.

(** *** [time.Since] *)

Definition Since (t : time.Time) : Go time.Duration :=
  gets (fun w => time.Sub (now w) t).

(** *** [sync/atomic] on the package-level counters *)

Inductive Var : Type := addCounterVar | updateCounterVar | deleteCounterVar.

Definition load (x : Var) (v : pkg.Vars) : Z :=
  match x with
  | addCounterVar => pkg.addCounter v
  | updateCounterVar => pkg.updateCounter v
  | deleteCounterVar => pkg.deleteCounter v
  end.

Definition store_var (x : Var) (n : Z) (v : pkg.Vars) : pkg.Vars :=
  match x with
  | addCounterVar =>
      {| pkg.addCounter := n; pkg.updateCounter := pkg.updateCounter v;
         pkg.deleteCounter := pkg.deleteCounter v |}
  | updateCounterVar =>
      {| pkg.addCounter := pkg.addCounter v; pkg.updateCounter := n;
         pkg.deleteCounter := pkg.deleteCounter v |}
  | deleteCounterVar =>
      {| pkg.addCounter := pkg.addCounter v; pkg.updateCounter := pkg.updateCounter v;
         pkg.deleteCounter := n |}
  end.

Definition AddInt32 (addr : Var) (delta : Z) : Go Z :=
  fun w =>
    let new := add32 (load addr (vars w)) delta in
    Done new (set_vars (store_var addr new (vars w)) w).

Definition LoadInt32 (addr : Var) : Go Z :=
  gets (fun w => load addr (vars w)).

(** *** The Prometheus counters of the watcher *)

Inductive Metric : Type :=
| addMetric | updateMetric | deleteMetric | oldEventsMetric.

Definition metric (m : Metric) (e : EventWatcher) : Z :=
  match m with
  | addMetric => addCounter e
  | updateMetric => updateCounter e
  | deleteMetric => deleteCounter e
  | oldEventsMetric => oldEventsCounter e
  end.

Definition inc_metric (m : Metric) (e : EventWatcher) : EventWatcher :=
  {| namespace := namespace e; statsIntervalSeconds := statsIntervalSeconds e;
     logger := logger e; _startTime := _startTime e; _store := _store e;
     addCounter := match m with addMetric => addCounter e + 1 | _ => addCounter e end;
     updateCounter :=
       match m with updateMetric => updateCounter e + 1 | _ => updateCounter e end;
     deleteCounter :=
       match m with deleteMetric => deleteCounter e + 1 | _ => deleteCounter e end;
     oldEventsCounter :=
       match m with oldEventsMetric => oldEventsCounter e + 1 | _ => oldEventsCounter e end |}.

Definition Inc (m : Metric) : Go unit :=
  modify (fun w => set_ew (inc_metric m (ew w)) w).

(** *** The logger *)

Definition Info (fs : list Field) (message : string) (a : list Z) : Go unit :=
  fun w =>
    Done tt (write_log {| level := InfoLevel; component := logger (ew w);
                          fields := fs; msg := message; args := a |} w).

Definition Error (fs : list Field) (message : string) : Go unit :=
  fun w =>
    Done tt (write_log {| level := ErrorLevel; component := logger (ew w);
                          fields := fs; msg := message; args := [] |} w).

(** *** [cache.Store] *)

(** The key of the informer's store: [namespace/name], or [name] alone for an
    empty namespace; an object without metadata has none. *)
Definition keyFunc (obj : Obj) : option string :=
  match obj with
  | ObjEvent e =>
      Some (if String.eqb (Namespace e) "" then Name e
            else (Namespace e ++ "/" ++ Name e)%string)
  | ObjOther _ => None
  end.

(** [Delete] takes the key out; it fails only for an object without a key. *)
Definition Delete (obj : Obj) : Go (option string) :=
  fun w =>
    let w := record_call (CallDelete obj) w in
    match keyFunc obj with
    | None => Done (Some "couldn't create key for object") w
    | Some k => Done None (set_ew (set_store (delete k (_store (ew w))) (ew w)) w)
    end.

Definition ListKeys : Go (list string) :=
  fun w =>
    Done (map fst (map_to_list (_store (ew w)))) (record_call CallListKeys w).

(** ** The handlers of src/cmd/k8s-event-tailer/eventwatcher.go *)

(** The unchecked type assertion of [obj] to a pointer to [corev1.Event]. *)
Definition assertEvent (obj : Obj) : Go Event :=
  match obj with
  | ObjEvent e => ret e
  | ObjOther ty =>
      panic ("interface conversion: interface {} is " ++ ty ++ ", not *v1.Event")%string
  end.

Definition deleteEvent (obj : Obj) : Go unit :=
  err <- Delete obj ;;
  match err with
  | Some e => Error [Err e] "Could not delete object"
  | None => ret tt
  end.

Definition logEvent (event : Event) (message : string) : Go unit :=
  age <- Since (LastTimestamp event) ;;
  Info [ Str "namespace" (Namespace event);
         Str "name" (Name event);
         Str "version" (ResourceVersion event);
         Str "eventMsg" (Message event);
         TimeRFC3339 "lastTimestamp" (time.UTC (LastTimestamp event));
         Dur "age" (time.Round age time.Second);
         Int32 "count" (Count event) ]
       message [].

Definition OnAdd (obj : Obj) : Go unit :=
  event <- assertEvent obj ;;
  this <- gets ew ;;
  (if negb (isOldEvent this event) then
     logEvent event "Event added" ;;
     AddInt32 addCounterVar 1 ;;
     Inc addMetric
   else
     Inc oldEventsMetric) ;;
  deleteEvent obj.

Definition OnUpdate (oldObj newObj : Obj) : Go unit :=
  event <- assertEvent newObj ;;
  this <- gets ew ;;
  (if negb (isOldEvent this event) then
     logEvent event "Event updated" ;;
     AddInt32 updateCounterVar 1 ;;
     Inc updateMetric
   else
     Inc oldEventsMetric) ;;
  deleteEvent newObj.

Definition OnDelete (obj : Obj) : Go unit :=
  event <- assertEvent obj ;;
  this <- gets ew ;;
  (if negb (isOldEvent this event) then
     logEvent event "Event deleted" ;;
     AddInt32 deleteCounterVar 1 ;;
     Inc deleteMetric
   else
     Inc oldEventsMetric)
  (* ew.deleteEvent(obj) *).

(** ** src/unnamed/part_001: the revision with the stats reporter *)
Module Part001.

(** The handlers test staleness inline and read the wall clock for it. *)
Definition OnAdd (obj : Obj) : Go unit :=
  event <- assertEvent obj ;;
  this <- gets ew ;;
  since <- Since (time.UTC (LastTimestamp event)) ;;
  (if time.After (time.UTC (LastTimestamp event)) (_startTime this)
      || (since <? oldEventAgeMinutes * time.Minute) then
     logEvent event "Event added" ;;
     AddInt32 addCounterVar 1 ;;
     Inc addMetric
   else
     Inc oldEventsMetric) ;;
  deleteEvent obj.

Definition OnUpdate (oldObj newObj : Obj) : Go unit :=
  event <- assertEvent newObj ;;
  this <- gets ew ;;
  since <- Since (time.UTC (LastTimestamp event)) ;;
  (if time.After (time.UTC (LastTimestamp event)) (_startTime this)
      || (since <? oldEventAgeMinutes * time.Minute) then
     logEvent event "Event updated" ;;
     AddInt32 updateCounterVar 1 ;;
     Inc updateMetric
   else
     Inc oldEventsMetric) ;;
  deleteEvent newObj.

Definition OnDelete (obj : Obj) : Go unit :=
  event <- assertEvent obj ;;
  this <- gets ew ;;
  since <- Since (time.UTC (LastTimestamp event)) ;;
  (if time.After (time.UTC (LastTimestamp event)) (_startTime this)
      || (since <? oldEventAgeMinutes * time.Minute) then
     logEvent event "Event deleted" ;;
     AddInt32 deleteCounterVar 1 ;;
     Inc deleteMetric
   else
     Inc oldEventsMetric)
  (* ew.deleteEvent(obj) *).

(** [time.NewTicker(d)] panics for a non-positive [d]. *)
Definition NewTicker (d : time.Duration) : Go unit :=
  if d <=? 0 then panic "non-positive interval for NewTicker"
  else modify (set_ticker (Ticking false)).

(** [ticker.Stop()]: no more ticks are sent; the channel keeps what it has. *)
Definition Stop : Go unit :=
  modify (fun w =>
    match ticker w with
    | Ticking p => set_ticker (Stopped p) w
    | _ => w
    end).

(** Receiving from [ticker.C] empties the channel. *)
Definition receiveTick : Go unit :=
  modify (fun w =>
    match ticker w with
    | Ticking _ => set_ticker (Ticking false) w
    | Stopped _ => set_ticker (Stopped false) w
    | NoTicker => w
    end).

Definition msgStoreSize : string := "STATS: Number of items in store: %d".
Definition msgCumulative : string :=
  "STATS: addCounter: %d, updateCounter: %d, deleteCounter: %d".
Definition msgDelta : string := "STATS: added: %d, updated: %d, deleted: %d".

(** Where the goroutine of [runStatsPrint] stands: not started, blocked in
    the [select] of its loop with its three local variables, or returned. *)
Inductive Reporter : Type :=
| Idle
| Selecting (prevAdd prevUpdate prevDelete : Z)
| Returned.

Inductive SelectCase : Type := stopChanCase | tickerCase.

(** A case of the [select] can proceed when its channel has something to
    receive: [stopChan] once it is closed, [ticker.C] when a tick waits. *)
Definition ready (c : SelectCase) (w : World) : bool :=
  match c with
  | stopChanCase => stopChan w
  | tickerCase =>
      match ticker w with
      | Ticking p | Stopped p => p
      | NoTicker => false
      end
  end.

(** [runStatsPrint] up to its [for] loop. *)
Definition runStatsPrint_enter : Go Reporter :=
  this <- gets ew ;;
  if statsIntervalSeconds this <=? 0 then
    Info [] "Disabling stats" [] ;;
    ret Returned
  else
    NewTicker (wrap64 (statsIntervalSeconds this * time.Second)) ;;
    Info [] "Starting stats" [] ;;
    ret (Selecting 0 0 0).

(** One round of the loop, for the case [c] the [select] proceeds with. *)
Definition runStatsPrint_select (c : SelectCase) (prevAdd prevUpdate prevDelete : Z)
  : Go Reporter :=
  match c with
  | stopChanCase =>
      Info [] "Stopping stats" [] ;;
      Stop ;;
      ret Returned
  | tickerCase =>
      receiveTick ;;
      addC <- LoadInt32 addCounterVar ;;
      updateC <- LoadInt32 updateCounterVar ;;
      deleteC <- LoadInt32 deleteCounterVar ;;
      keys <- ListKeys ;;
      Info [] msgStoreSize [Z.of_nat (length keys)] ;;
      Info [] msgCumulative [addC; updateC; deleteC] ;;
      Info [] msgDelta
        [sub32 addC prevAdd; sub32 updateC prevUpdate; sub32 deleteC prevDelete] ;;
      ret (Selecting addC updateC deleteC)
  end.

End Part001.

(** ** The running process

    The goroutines of the process, interleaved: the informer delivering
    notifications to the handler, the runtime sending ticks, [main] closing
    [stopChan], and the stats reporter taking one case of its [select] at a
    time.  A [select] with several cases ready proceeds with any one of
    them. *)

(** [cache.ResourceEventHandler]. *)
Record ResourceEventHandler : Type := mkHandler {
  onAdd : Obj -> Go unit;
  onUpdate : Obj -> Obj -> Go unit;
  onDelete : Obj -> Go unit
}.

Definition cmdHandler : ResourceEventHandler :=
  {| onAdd := OnAdd; onUpdate := OnUpdate; onDelete := OnDelete |}.

Definition part001Handler : ResourceEventHandler :=
  {| onAdd := Part001.OnAdd; onUpdate := Part001.OnUpdate;
     onDelete := Part001.OnDelete |}.

Inductive Notification : Type :=
| Added (obj : Obj)
| Updated (oldObj newObj : Obj)
| Deleted (obj : Obj).

(** The informer brings its store up to date, then calls the handler. *)
Definition informerStore (n : Notification) : Go unit :=
  modify (fun w =>
    match n with
    | Added obj | Updated _ obj =>
        match obj, keyFunc obj with
        | ObjEvent e, Some k => set_ew (set_store (<[k := e]> (_store (ew w))) (ew w)) w
        | _, _ => w
        end
    | Deleted obj =>
        match keyFunc obj with
        | Some k => set_ew (set_store (delete k (_store (ew w))) (ew w)) w
        | None => w
        end
    end).

Definition dispatch (h : ResourceEventHandler) (n : Notification) : Go unit :=
  informerStore n ;;
  match n with
  | Added obj => onAdd h obj
  | Updated oldObj newObj => onUpdate h oldObj newObj
  | Deleted obj => onDelete h obj
  end.

Record Sys : Type := mkSys {
  world : World;
  reporter : Part001.Reporter;
  halted : option string
}.

Inductive Action : Type :=
| Deliver (n : Notification)
| Clock (t : time.Time)
| Spawn
| Fire
| CloseStop
| Select (c : Part001.SelectCase).

(** The state after a handler call: a panic takes the process down. *)
Definition afterHandler (s : Sys) (o : Outcome unit) : Sys :=
  match o with
  | Done _ w => {| world := w; reporter := reporter s; halted := None |}
  | Panic r w => {| world := w; reporter := reporter s; halted := Some r |}
  end.

Definition afterReporter (o : Outcome Part001.Reporter) : Sys :=
  match o with
  | Done r w => {| world := w; reporter := r; halted := None |}
  | Panic r w => {| world := w; reporter := Part001.Returned; halted := Some r |}
  end.

(** One step; [None] when the action cannot happen in [s]. *)
Definition step (h : ResourceEventHandler) (s : Sys) (a : Action) : option Sys :=
  match halted s with
  | Some _ => None
  | None =>
      let w := world s in
      match a with
      | Deliver n => Some (afterHandler s (dispatch h n w))
      | Clock t =>
          Some {| world := set_now t w; reporter := reporter s; halted := None |}
      | Spawn =>
          match reporter s with
          | Part001.Idle => Some (afterReporter (Part001.runStatsPrint_enter w))
          | _ => None
          end
      | Fire =>
          match ticker w with
          | Ticking _ =>
              Some {| world := set_ticker (Ticking true) w; reporter := reporter s;
                      halted := None |}
          | _ => None
          end
      | CloseStop =>
          if stopChan w then None
          else Some {| world := close_stopChan w; reporter := reporter s;
                       halted := None |}
      | Select c =>
          match reporter s with
          | Part001.Selecting pa pu pd =>
              if Part001.ready c w
              then Some (afterReporter (Part001.runStatsPrint_select c pa pu pd w))
              else None
          | _ => None
          end
      end
  end.

Fixpoint run (h : ResourceEventHandler) (s : Sys) (acts : list Action) : option Sys :=
  match acts with
  | [] => Some s
  | a :: rest =>
      match step h s a with
      | Some s' => run h s' rest
      | None => None
      end
  end.

(** The process as [main] and [Run] leave it before any goroutine has run:
    counters at zero, an empty store and log, [_startTime] read off the
    clock. *)
Definition boot (ns : string) (statsSeconds : Z) (clock : time.Time) : Sys :=
  {| world :=
       {| now := clock;
          vars := {| pkg.addCounter := 0; pkg.updateCounter := 0;
                     pkg.deleteCounter := 0 |};
          ew := {| namespace := ns; statsIntervalSeconds := statsSeconds;
                   logger := "watcher"; _startTime := time.UTC clock;
                   _store := ∅; addCounter := 0; updateCounter := 0;
                   deleteCounter := 0; oldEventsCounter := 0 |};
          output := []; storeCalls := []; ticker := NoTicker; stopChan := false |};
     reporter := Part001.Idle;
     halted := None |}.

(** ** Vocabulary of the statements *)

(** The world an outcome ends in. *)
Definition final {A} (o : Outcome A) : World :=
  match o with
  | Done _ w => w
  | Panic _ w => w
  end.

Definition fiveMinutes : Z := 5 * time.Minute.

(** ** Sample inputs *)

Definition t_start : time.Time := time.mkTime 63800000000 250000000 time.utcLoc.

(** Four minutes, exactly five minutes, six minutes before [t_start], and one
    nanosecond past five minutes. *)
Definition t_minus4 : time.Time := time.mkTime 63799999760 250000000 time.localLoc.
Definition t_minus5 : time.Time := time.mkTime 63799999700 250000000 time.utcLoc.
Definition t_minus5_1ns : time.Time := time.mkTime 63799999700 249999999 time.utcLoc.
Definition t_minus6 : time.Time := time.mkTime 63799999640 250000000 time.utcLoc.
Definition t_plus1h : time.Time := time.mkTime 63800003600 0 time.utcLoc.

Definition sampleEvent (last : time.Time) : Event :=
  {| Namespace := "default"; Name := "nginx.16f7126032cf0392";
     ResourceVersion := "540352";
     Message := "Successfully assigned default/nginx to minikube";
     LastTimestamp := last; Count := 1 |}.

Definition w_boot : World := world (boot "" 10 t_start).

(** A world that differs from [w_boot] in everything the classifier should
    not look at: the clock, the counters, the store, the log. *)
Definition w_late : World :=
  {| now := time.mkTime 63900000000 7 time.localLoc;
     vars := {| pkg.addCounter := 41; pkg.updateCounter := 7; pkg.deleteCounter := 3 |};
     ew := {| namespace := "kube-system"; statsIntervalSeconds := 0; logger := "watcher";
              _startTime := time.mkTime 63800000000 250000000 (time.fixedZone 7200);
              _store := {[ "default/a" := sampleEvent t_minus6 ]};
              addCounter := 41; updateCounter := 7; deleteCounter := 3;
              oldEventsCounter := 12 |};
     output := []; storeCalls := [CallListKeys]; ticker := Ticking true;
     stopChan := true |}.

Definition otherEvent (last : time.Time) : Event :=
  {| Namespace := "kube-system"; Name := "coredns.17a0"; ResourceVersion := "9";
     Message := "Back-off restarting failed container";
     LastTimestamp := last; Count := 14 |}.

(** ** What a handler does with a notification *)

(** The fresh branch: one info record with the transition's message, the
    transition's [int32] counter and its metric one further, nothing else
    counted. *)
Definition reported (x : Var) (m : Metric) (message : string) (w w' : World) : Prop :=
  (exists r, output w' = output w ++ [r] /\ level r = InfoLevel /\ msg r = message) /\
  load x (vars w') = add32 (load x (vars w)) 1 /\
  (forall y, y <> x -> load y (vars w') = load y (vars w)) /\
  metric m (ew w') = metric m (ew w) + 1 /\
  (forall m', m' <> m -> metric m' (ew w') = metric m' (ew w)).

(** The old branch: the old-events metric one further, nothing logged,
    nothing else counted. *)
Definition ignored (w w' : World) : Prop :=
  output w' = output w /\
  vars w' = vars w /\
  metric oldEventsMetric (ew w') = metric oldEventsMetric (ew w) + 1 /\
  (forall m', m' <> oldEventsMetric -> metric m' (ew w') = metric m' (ew w)).

(** The object is taken out of the store: one [Delete] call, and its key is
    gone. *)
Definition removed (obj : Obj) (w w' : World) : Prop :=
  storeCalls w' = storeCalls w ++ [CallDelete obj] /\
  (forall k, keyFunc obj = Some k -> _store (ew w') = delete k (_store (ew w))).

(** A handler call returns, having taken exactly one of the two branches and
    then removed the object. *)
Definition handled (x : Var) (m : Metric) (message : string) (obj : Obj)
    (w : World) (o : Outcome unit) : Prop :=
  exists w',
    o = Done tt w' /\
    ((reported x m message w w' /\ ~ ignored w w') \/
     (ignored w w' /\ ~ reported x m message w w')) /\
    removed obj w w'.

(** A handler call panics and leaves the world as it found it. *)
Definition aborts (w : World) (o : Outcome unit) : Prop :=
  exists reason, o = Panic reason w.

Definition returns (o : Outcome unit) : Prop :=
  exists w', o = Done tt w'.

(** A store that still holds the object a delete notification is about. *)
Definition w_held : World :=
  set_ew (set_store {[ "default/nginx.16f7126032cf0392" := sampleEvent t_minus4 ]}
            (ew w_boot)) w_boot.

(** ** Reading the log *)

(** The messages the handlers log. *)
Definition handlerMsgs : list string :=
  ["Event added"; "Event updated"; "Event deleted"; "Could not delete object"].

(** The three records of a snapshot. *)
Definition isSnapshot (r : LogRecord) : bool :=
  String.eqb (msg r) Part001.msgStoreSize
  || String.eqb (msg r) Part001.msgCumulative
  || String.eqb (msg r) Part001.msgDelta.

Definition snapshots (out : list LogRecord) : list LogRecord :=
  List.filter isSnapshot out.

Definition countMsg (message : string) (out : list LogRecord) : nat :=
  length (List.filter (fun r => String.eqb (msg r) message) out).

(** The three numbers of a record logged with [format]. *)
Definition statsTriple (format : string) (r : LogRecord) : list (Z * Z * Z) :=
  if String.eqb (msg r) format then
    match args r with
    | [a; b; c] => [(a, b, c)]
    | _ => []
    end
  else [].

(** The cumulative counters and the deltas of the snapshots in a log, in
    order. *)
Definition cumulatives (out : list LogRecord) : list (Z * Z * Z) :=
  flat_map (statsTriple Part001.msgCumulative) out.

Definition deltas (out : list LogRecord) : list (Z * Z * Z) :=
  flat_map (statsTriple Part001.msgDelta) out.

Definition sub3 (minus : Z -> Z -> Z) (c p : Z * Z * Z) : Z * Z * Z :=
  match c, p with
  | (a, u, d), (pa, pu, pd) => (minus a pa, minus u pu, minus d pd)
  end.

(** Each entry minus the one before it, the first minus [prev]. *)
Fixpoint diffs (minus : Z -> Z -> Z) (prev : Z * Z * Z) (cs : list (Z * Z * Z))
  : list (Z * Z * Z) :=
  match cs with
  | [] => []
  | c :: rest => sub3 minus c prev :: diffs minus c rest
  end.

Definition nonneg3 (c : Z * Z * Z) : Prop :=
  match c with
  | (a, u, d) => 0 <= a /\ 0 <= u /\ 0 <= d
  end.

Definition int32_3 (c : Z * Z * Z) : Prop :=
  match c with
  | (a, u, d) => is_int32 a /\ is_int32 u /\ is_int32 d
  end.

(** The handlers of one of the two revisions. *)
Definition watcherHandler (h : ResourceEventHandler) : Prop :=
  h = cmdHandler \/ h = part001Handler.

(** What a delivered notification may change: it appends handler records to
    the log, moves each counter by nothing or by one increment, and leaves the
    ticker, the stop channel and the stats interval alone. *)
Definition handler_frame (w w' : World) : Prop :=
  (exists l, output w' = output w ++ l /\
             Forall (fun r => In (msg r) handlerMsgs) l) /\
  ticker w' = ticker w /\
  stopChan w' = stopChan w /\
  statsIntervalSeconds (ew w') = statsIntervalSeconds (ew w) /\
  (forall x, load x (vars w') = load x (vars w) \/
             load x (vars w') = add32 (load x (vars w)) 1) /\
  (forall m, metric m (ew w') = metric m (ew w) \/
             metric m (ew w') = metric m (ew w) + 1).

(** The record [ew.logger.Info().Msgf(message, a...)] writes in [w]. *)
Definition infoRecord (w : World) (message : string) (a : list Z) : LogRecord :=
  {| level := InfoLevel; component := logger (ew w); fields := [];
     msg := message; args := a |}.

(** The world of a state reached with the add counter at its largest value,
    after 2147483647 reported add notifications. *)
Definition s_full : Sys :=
  let s := boot "" 10 t_start in
  {| world := set_vars {| pkg.addCounter := MaxInt32; pkg.updateCounter := 0;
                          pkg.deleteCounter := 0 |} (world s);
     reporter := reporter s; halted := halted s |}.

(** What holds of the log and the reporter in every state the process
    reaches: the deltas logged so far are the differences of the cumulative
    values logged so far, all of them [int32], and the reporter's three local
    variables hold the last cumulative values logged (zero before the first
    snapshot). *)
Definition stats_inv (s : Sys) : Prop :=
  let out := output (world s) in
  deltas out = diffs sub32 (0, 0, 0) (cumulatives out) /\
  Forall int32_3 (cumulatives out) /\
  (forall x, is_int32 (load x (vars (world s)))) /\
  match reporter s with
  | Part001.Idle => cumulatives out = []
  | Part001.Selecting pa pu pd => List.last (cumulatives out) (0, 0, 0) = (pa, pu, pd)
  | Part001.Returned => True
  end.

(** A run with two snapshots: two events reported before the first tick, one
    update reported and one old event ignored before the second. *)
Definition acts_two_ticks : list Action :=
  [ Spawn;
    Deliver (Added (ObjEvent (sampleEvent t_minus4)));
    Deliver (Added (ObjEvent (otherEvent t_plus1h)));
    Fire;
    Select Part001.tickerCase;
    Deliver (Updated (ObjEvent (sampleEvent t_minus4)) (ObjEvent (sampleEvent t_start)));
    Deliver (Added (ObjEvent (otherEvent t_minus6)));
    Fire;
    Select Part001.tickerCase;
    CloseStop;
    Select Part001.stopChanCase ].

Definition notTicking (t : Ticker) : Prop :=
  match t with
  | Ticking _ => False
  | _ => True
  end.

(** The reporter is spawned, a tick arrives, and [main] closes [stopChan]
    before the reporter is back at its [select]: both cases are ready. *)
Definition acts_stop_with_tick_pending : list Action := [Spawn; Fire; CloseStop].

Definition s_stop_with_tick_pending : Sys :=
  match run part001Handler (boot "" 10 t_start) acts_stop_with_tick_pending with
  | Some s => s
  | None => boot "" 10 t_start
  end.


(** ** [main]: [setup] and the web server's address *)

(** Package [strings], as far as [setup] uses it. *)
Module gostrings.

Definition HasPrefix (s prefix : string) : bool := String.prefix prefix s.

(** [strings.Index]: where [substr] first occurs in [s]. *)
Fixpoint Index (s substr : string) : option nat :=
  if String.prefix substr s then Some 0%nat
  else
    match s with
    | EmptyString => None
    | String _ rest => option_map S (Index rest substr)
    end.

(** [strings.Replace(s, old, new, 1)]: the first occurrence of [old] gives
    way to [new]. *)
Definition Replace1 (s old new : string) : string :=
  if String.eqb old new then s
  else
    match Index s old with
    | None => s
    | Some j =>
        (substring 0 j s ++ new
           ++ substring (j + String.length old)
                (String.length s - (j + String.length old)) s)%string
    end.

End gostrings.

(** What [setup] makes of the [kubeconfig] flag, given [os.Getenv("HOME")]. *)
Definition setup_kubeconfig (kubeconfig HOME : string) : string :=
  if gostrings.HasPrefix kubeconfig "~/" then
    gostrings.Replace1 kubeconfig "~/" (HOME ++ "/")%string
  else kubeconfig.

(** [%d] of [fmt.Sprintf], and reading a decimal back. *)
Definition Itoa (i : Z) : string := NilZero.string_of_int (Z.to_int i).

Definition Atoi (s : string) : option Z :=
  option_map Z.of_int (NilZero.int_of_string s).

(** [WebServer], without its [http.Server] beyond the address. *)
Record WebServer : Type := mkWebServer {
  Addr : string;
  ws_logger : string
}.

Definition NewWebServer (port : Z) : WebServer :=
  {| Addr := (":" ++ Itoa port)%string; ws_logger := "web" |}.

(** ** More vocabulary *)

(** The object a notification hands to the type assertion of its handler. *)
Definition notifiedObj (n : Notification) : Obj :=
  match n with
  | Added obj => obj
  | Updated _ newObj => newObj
  | Deleted obj => obj
  end.

Definition isEventObj (obj : Obj) : bool :=
  match obj with
  | ObjEvent _ => true
  | ObjOther _ => false
  end.

(** The notifications about events among the actions of a run. *)
Fixpoint notifiedEvents (acts : list Action) : nat :=
  match acts with
  | [] => 0%nat
  | Deliver n :: rest =>
      if isEventObj (notifiedObj n) then S (notifiedEvents rest)
      else notifiedEvents rest
  | _ :: rest => notifiedEvents rest
  end.

Fixpoint fires (acts : list Action) : nat :=
  match acts with
  | [] => 0%nat
  | Fire :: rest => S (fires rest)
  | _ :: rest => fires rest
  end.

(** The four Prometheus counters together. *)
Definition totalCounted (e : EventWatcher) : Z :=
  addCounter e + updateCounter e + deleteCounter e + oldEventsCounter e.

(** The metric that is incremented along with an [int32] counter. *)
Definition metricOf (x : Var) : Metric :=
  match x with
  | addCounterVar => addMetric
  | updateCounterVar => updateMetric
  | deleteCounterVar => deleteMetric
  end.

(** The inline staleness test of part_001, as a function of the world. *)
Definition inlineFresh (w : World) (e : Event) : bool :=
  time.After (time.UTC (LastTimestamp e)) (_startTime (ew w))
  || (time.Sub (now w) (time.UTC (LastTimestamp e)) <? oldEventAgeMinutes * time.Minute).

(** The records the stats reporter writes. *)
Definition isReporter (r : LogRecord) : bool :=
  isSnapshot r
  || String.eqb (msg r) "Disabling stats"
  || String.eqb (msg r) "Starting stats"
  || String.eqb (msg r) "Stopping stats".

Definition reporterMsgs (out : list LogRecord) : list string :=
  map msg (List.filter isReporter out).

Definition snapshotMsgs : list string :=
  [Part001.msgStoreSize; Part001.msgCumulative; Part001.msgDelta].

(** [k] snapshots in a row. *)
Fixpoint snapshotRun (k : nat) : list string :=
  match k with
  | O => []
  | S k' => snapshotMsgs ++ snapshotRun k'
  end.

Definition pendingTick (t : Ticker) : nat :=
  match t with
  | Ticking true | Stopped true => 1%nat
  | _ => 0%nat
  end.

(** The largest stats interval whose duration in nanoseconds fits [int64]. *)
Definition maxStatsSeconds : Z := 9223372036.

Definition Metric_eqb (a b : Metric) : bool :=
  match a, b with
  | addMetric, addMetric | updateMetric, updateMetric
  | deleteMetric, deleteMetric | oldEventsMetric, oldEventsMetric => true
  | _, _ => false
  end.

(** The settings of the watcher that are fixed when it starts. *)
Definition sameConfig (e e' : EventWatcher) : Prop :=
  namespace e' = namespace e /\
  statsIntervalSeconds e' = statsIntervalSeconds e /\
  logger e' = logger e /\
  _startTime e' = _startTime e.

(** What a handler call about an event [obj] makes of the world, given the
    branch it takes ([fresh]) and whether it ends with the removal: the
    transition's [int32] counter and metric one further, or the old-events
    metric; one log record or none; the object's key out of the store or the
    store as it was; everything else as before. *)
Definition branch_effect (x : Var) (fresh removal : bool) (obj : Obj)
    (w w' : World) : Prop :=
  vars w' = (if fresh then store_var x (add32 (load x (vars w)) 1) (vars w)
             else vars w) /\
  (forall m, metric m (ew w') =
             metric m (ew w) +
             (if Metric_eqb m (if fresh then metricOf x else oldEventsMetric)
              then 1 else 0)) /\
  length (output w') = (length (output w) + (if fresh then 1 else 0))%nat /\
  _store (ew w') =
    (if removal then
       match keyFunc obj with
       | Some k => delete k (_store (ew w))
       | None => _store (ew w)
       end
     else _store (ew w)) /\
  sameConfig (ew w) (ew w') /\
  now w' = now w /\ ticker w' = ticker w /\ stopChan w' = stopChan w.

(** What the reporter has logged, by where it stands. *)
Definition shape_inv (s : Sys) : Prop :=
  let msgs := reporterMsgs (output (world s)) in
  match reporter s with
  | Part001.Idle => msgs = []
  | Part001.Selecting _ _ _ => exists k, msgs = "Starting stats" :: snapshotRun k
  | Part001.Returned =>
      msgs = [] \/ msgs = ["Disabling stats"] \/
      exists k, msgs = "Starting stats" :: snapshotRun k ++ ["Stopping stats"]
  end.

(** The add notifications for a list of events, in order. *)
Definition addNotifications (es : list Event) : list Action :=
  map (fun e => Deliver (Added (ObjEvent e))) es.

(** How many of the events the classifier lets through. *)
Definition freshCount (e : EventWatcher) (es : list Event) : nat :=
  length (List.filter (fun ev => negb (isOldEvent e ev)) es).
(** A snapshot, one more reported add notification, and a second snapshot. *)
Definition acts_across_wrap : list Action :=
  [ Spawn; Fire; Select Part001.tickerCase;
    Deliver (Added (ObjEvent (sampleEvent t_minus4)));
    Fire; Select Part001.tickerCase ].

(** The same event under the same start time, an hour later. *)
Definition w_hour_later : World := set_now t_plus1h w_boot.

(** * Properties *)

(** ** Arithmetic of the embedding *)

Lemma wrap32_id z : is_int32 z -> wrap32 z = z.
Proof.
  unfold is_int32, MinInt32, MaxInt32, wrap32. intros H.
  rewrite Z.mod_small; lia.
Qed.

Lemma wrap32_range z : is_int32 (wrap32 z).
Proof.
  unfold is_int32, MinInt32, MaxInt32, wrap32.
  pose proof (Z.mod_pos_bound (z + 2 ^ 31) (2 ^ 32) ltac:(lia)). lia.
Qed.

(** ** Package [time] *)

Lemma After_instant t u :
  time.wf t -> time.wf u ->
  (time.After t u = true <-> time.instant t > time.instant u).
Proof.
  unfold time.wf, time.After, time.instant. intros Ht Hu.
  rewrite orb_true_iff, andb_true_iff, Z.eqb_eq.
  rewrite <- !Zgt_is_gt_bool. split; [intros [H | [H1 H2]] | intros H]; nia.
Qed.

Lemma UTC_instant t : time.instant (time.UTC t) = time.instant t.
Proof. reflexivity. Qed.

Lemma UTC_wf t : time.wf t -> time.wf (time.UTC t).
Proof. exact id. Qed.

(** Saturation never moves a duration across a threshold below the largest
    duration. *)
Lemma Sub_gt_threshold t u d :
  time.minDuration <= d < time.maxDuration ->
  ((time.Sub t u >? d) = true <-> time.instant t - time.instant u > d).
Proof.
  unfold time.Sub, time.minDuration, time.maxDuration.
  change (2 ^ 63) with 9223372036854775808.
  intros Hd. cbv zeta. rewrite <- Zgt_is_gt_bool.
  repeat match goal with
         | |- context [?a <? ?b] => destruct (Z.ltb_spec a b); cbv iota
         end; lia.
Qed.

Lemma Equal_fields t u :
  time.Equal t u = true -> time.sec t = time.sec u /\ time.nsec t = time.nsec u.
Proof.
  unfold time.Equal. rewrite andb_true_iff, !Z.eqb_eq. tauto.
Qed.

(** ** The staleness classifier *)

Lemma isOldEvent_after this e :
  time.After (time.UTC (LastTimestamp e)) (_startTime this) = true ->
  isOldEvent this e = false.
Proof. unfold isOldEvent. intros ->. reflexivity. Qed.

Lemma isOldEvent_not_after this e :
  time.After (time.UTC (LastTimestamp e)) (_startTime this) = false ->
  (isOldEvent this e = true <->
   time.instant (_startTime this) - time.instant (LastTimestamp e) > fiveMinutes).
Proof.
  unfold isOldEvent. intros ->.
  rewrite Sub_gt_threshold; [reflexivity |].
  unfold time.minDuration, time.maxDuration, oldEventAgeMinutes, time.Minute,
    time.Second, time.Nanosecond. lia.
Qed.

(** The classifier of eventwatcher.go: an event whose last timestamp is
    strictly after the start time is not old, however far ahead it lies; an
    event at or before the start time is old exactly when the start time minus
    its last timestamp exceeds five minutes, and at exactly five minutes it is
    not old. *)
Theorem C1_isOldEvent_classification (this : EventWatcher) (E : Event) :
  time.wf (LastTimestamp E) -> time.wf (_startTime this) ->
  let last := time.instant (LastTimestamp E) in
  let startTime := time.instant (_startTime this) in
  (last > startTime -> isOldEvent this E = false) /\
  (last <= startTime ->
     (isOldEvent this E = true <-> startTime - last > 5 * time.Minute)) /\
  (startTime - last = 5 * time.Minute -> isOldEvent this E = false).
Proof.
  intros Hl Hs last startTime.
  assert (Haft : time.After (time.UTC (LastTimestamp E)) (_startTime this) = true
                 <-> last > startTime).
  { apply After_instant; [apply UTC_wf |]; assumption. }
  assert (Hle : last <= startTime ->
                (isOldEvent this E = true <-> startTime - last > 5 * time.Minute)).
  { intros H. apply isOldEvent_not_after.
    destruct (time.After (time.UTC (LastTimestamp E)) (_startTime this));
      [| reflexivity].
    assert (last > startTime) by (apply Haft; reflexivity). lia. }
  split; [| split].
  - intros H. apply isOldEvent_after, Haft, H.
  - exact Hle.
  - intros H.
    assert (H5 : 0 < 5 * time.Minute) by (vm_compute; reflexivity).
    destruct (isOldEvent this E); [| reflexivity].
    assert (startTime - last > 5 * time.Minute) by (apply Hle; [lia | reflexivity]).
    lia.
Qed.

Lemma C1_isOldEvent_classification_witness :
  isOldEvent (ew w_boot) (sampleEvent t_plus1h) = false /\
  isOldEvent (ew w_boot) (sampleEvent t_minus5) = false /\
  isOldEvent (ew w_boot) (sampleEvent t_minus5_1ns) = true /\
  isOldEvent (ew w_boot) (sampleEvent t_minus6) = true.
Proof.
  assert (Hs : time.wf (_startTime (ew w_boot))) by (unfold time.wf; cbn; lia).
  assert (Hl : forall t, 0 <= time.nsec t < 1000000000 ->
                         time.wf (LastTimestamp (sampleEvent t))) by (intros t H; exact H).
  split; [| split; [| split]].
  - apply (proj1 (C1_isOldEvent_classification (ew w_boot) (sampleEvent t_plus1h)
                    (Hl t_plus1h ltac:(cbn; lia)) Hs)).
    vm_compute. reflexivity.
  - apply (proj2 (proj2 (C1_isOldEvent_classification (ew w_boot) (sampleEvent t_minus5)
                    (Hl t_minus5 ltac:(cbn; lia)) Hs))).
    vm_compute. reflexivity.
  - apply (proj1 (proj2 (C1_isOldEvent_classification (ew w_boot)
                           (sampleEvent t_minus5_1ns)
                    (Hl t_minus5_1ns ltac:(cbn; lia)) Hs))).
    + vm_compute. discriminate.
    + vm_compute. reflexivity.
  - apply (proj1 (proj2 (C1_isOldEvent_classification (ew w_boot)
                           (sampleEvent t_minus6)
                    (Hl t_minus6 ltac:(cbn; lia)) Hs))).
    + vm_compute. discriminate.
    + vm_compute. reflexivity.
Defined.

(** The classifier of eventwatcher.go reads the start time and the event's
    last timestamp and nothing else: two evaluations at the same pair of
    instants agree, whatever the clock, the counters, the store, the log, the
    locations of the two times or the other fields of the event are. *)
Theorem C2_isOldEvent_pure (w1 w2 : World) (e1 e2 : Event) :
  time.Equal (_startTime (ew w1)) (_startTime (ew w2)) = true ->
  time.Equal (LastTimestamp e1) (LastTimestamp e2) = true ->
  isOldEvent (ew w1) e1 = isOldEvent (ew w2) e2.
Proof.
  intros Hs Hl.
  apply Equal_fields in Hs as [Hs1 Hs2]. apply Equal_fields in Hl as [Hl1 Hl2].
  unfold isOldEvent, time.After, time.Sub, time.instant, time.UTC; cbn [time.sec time.nsec].
  rewrite Hs1, Hs2, Hl1, Hl2. reflexivity.
Qed.

Lemma C2_isOldEvent_pure_witness :
  now w_boot <> now w_late /\ vars w_boot <> vars w_late /\
  isOldEvent (ew w_boot) (sampleEvent t_minus4) =
  isOldEvent (ew w_late) (otherEvent (time.UTC t_minus4)).
Proof.
  split; [discriminate | split; [discriminate |]].
  apply (C2_isOldEvent_pure w_boot w_late (sampleEvent t_minus4)
           (otherEvent (time.UTC t_minus4))); reflexivity.
Defined.

(** The inline test of part_001, by contrast, reads the clock: the same event
    under the same start time is reported at one moment and ignored at a
    later one. *)
Remark Part001_inline_test_reads_clock :
  let e := sampleEvent t_minus4 in
  let later := set_now t_plus1h w_boot in
  pkg.addCounter (vars (final (Part001.OnAdd (ObjEvent e) w_boot))) = 1 /\
  pkg.addCounter (vars (final (Part001.OnAdd (ObjEvent e) later))) = 0 /\
  pkg.addCounter (vars (final (OnAdd (ObjEvent e) w_boot))) = 1 /\
  pkg.addCounter (vars (final (OnAdd (ObjEvent e) later))) = 1.
Proof. vm_compute. repeat split. Qed.

(** ** The handlers *)

Ltac run_handler :=
  unfold OnAdd, OnUpdate, OnDelete, Part001.OnAdd, Part001.OnUpdate, Part001.OnDelete,
    deleteEvent, logEvent, assertEvent, Delete, Inc, AddInt32, Since, Info, Error,
    bind, ret, gets, modify, panic;
  cbn [keyFunc].

Lemma app_one_neq {A} (l : list A) (x : A) : l ++ [x] <> l.
Proof.
  intros H. apply (f_equal (@length A)) in H. rewrite length_app in H.
  cbn in H. lia.
Qed.

Lemma reported_not_ignored x m message w w' :
  reported x m message w w' -> ~ ignored w w'.
Proof.
  intros [[r [Hr _]] _] [Ho _]. rewrite Ho in Hr.
  symmetry in Hr. exact (app_one_neq _ _ Hr).
Qed.

Lemma ignored_not_reported x m message w w' :
  ignored w w' -> ~ reported x m message w w'.
Proof. intros Hi Hr. exact (reported_not_ignored _ _ _ _ _ Hr Hi). Qed.


Lemma load_store_eq x n v : load x (store_var x n v) = n.
Proof. destruct x; reflexivity. Qed.

Lemma load_store_ne x y n v : y <> x -> load y (store_var x n v) = load y v.
Proof. destruct x, y; intros H; try reflexivity; contradiction. Qed.

Lemma metric_set_store m s e : metric m (set_store s e) = metric m e.
Proof. destruct m; reflexivity. Qed.

Lemma metric_inc_eq m e : metric m (inc_metric m e) = metric m e + 1.
Proof. destruct m; reflexivity. Qed.

Lemma metric_inc_ne m m' e : m' <> m -> metric m' (inc_metric m e) = metric m' e.
Proof. destruct m, m'; intros H; try reflexivity; contradiction. Qed.

(** Either branch of a handler, followed by the removal. *)
Lemma branches_handled x m message e (fresh : bool) w :
  m <> oldEventsMetric ->
  handled x m message (ObjEvent e) w
    (((if fresh then logEvent e message ;; AddInt32 x 1 ;; Inc m
       else Inc oldEventsMetric) ;;
      deleteEvent (ObjEvent e)) w).
Proof.
  intros Hm. unfold handled. destruct fresh; run_handler.
  - eexists. split; [reflexivity |]. split.
    + assert (Hrep : forall w', reported x m message w w' ->
                (reported x m message w w' /\ ~ ignored w w') \/
                (ignored w w' /\ ~ reported x m message w w')).
      { intros w' H. left. split; [exact H | eapply reported_not_ignored; exact H]. }
      apply Hrep. unfold reported. cbn.
      rewrite !metric_set_store.
      split; [eexists; split; [reflexivity | split; reflexivity] |].
      split; [apply load_store_eq |].
      split; [intros y Hy; apply load_store_ne, Hy |].
      split; [apply metric_inc_eq |].
      intros m' Hm'. rewrite metric_set_store. apply metric_inc_ne, Hm'.
    + split; [reflexivity |]. intros k Hk. cbn in Hk. injection Hk as <-. reflexivity.
  - eexists. split; [reflexivity |]. split.
    + assert (Hign : forall w', ignored w w' ->
                (reported x m message w w' /\ ~ ignored w w') \/
                (ignored w w' /\ ~ reported x m message w w')).
      { intros w' H. right. split; [exact H | apply ignored_not_reported, H]. }
      apply Hign. unfold ignored. cbn.
      split; [reflexivity |]. split; [reflexivity |].
      split; [reflexivity |].
      intros m' Hm'. rewrite metric_set_store. apply metric_inc_ne, Hm'.
    + split; [reflexivity |]. intros k Hk. cbn in Hk. injection Hk as <-. reflexivity.
Qed.

(** C3: an add or an update notification about an event returns after taking
    exactly one of two branches, reporting the event (one log record, the
    transition's counter one further) or counting it as old, and in both
    cases the object is then removed from the store; in the handlers of
    eventwatcher.go and in those of part_001 alike. *)
Theorem C3_add_update_one_branch_then_removal (w : World) (e : Event) (oldObj : Obj) :
  handled addCounterVar addMetric "Event added" (ObjEvent e) w
    (OnAdd (ObjEvent e) w) /\
  handled updateCounterVar updateMetric "Event updated" (ObjEvent e) w
    (OnUpdate oldObj (ObjEvent e) w) /\
  handled addCounterVar addMetric "Event added" (ObjEvent e) w
    (Part001.OnAdd (ObjEvent e) w) /\
  handled updateCounterVar updateMetric "Event updated" (ObjEvent e) w
    (Part001.OnUpdate oldObj (ObjEvent e) w).
Proof.
  split; [| split; [| split]].
  - exact (branches_handled addCounterVar addMetric "Event added" e
             (negb (isOldEvent (ew w) e)) w ltac:(discriminate)).
  - exact (branches_handled updateCounterVar updateMetric "Event updated" e
             (negb (isOldEvent (ew w) e)) w ltac:(discriminate)).
  - exact (branches_handled addCounterVar addMetric "Event added" e
             (time.After (time.UTC (LastTimestamp e)) (_startTime (ew w))
              || (time.Sub (now w) (time.UTC (LastTimestamp e))
                  <? oldEventAgeMinutes * time.Minute))
             w ltac:(discriminate)).
  - exact (branches_handled updateCounterVar updateMetric "Event updated" e
             (time.After (time.UTC (LastTimestamp e)) (_startTime (ew w))
              || (time.Sub (now w) (time.UTC (LastTimestamp e))
                  <? oldEventAgeMinutes * time.Minute))
             w ltac:(discriminate)).
Qed.

(** What [OnDelete] does with an event object: the world it returns in. *)
Lemma OnDelete_branches x m message e (fresh : bool) w :
  exists w',
    (if fresh then logEvent e message ;; AddInt32 x 1 ;; Inc m
     else Inc oldEventsMetric) w = Done tt w' /\
    storeCalls w' = storeCalls w /\
    _store (ew w') = _store (ew w).
Proof.
  destruct fresh; run_handler; eexists; (split; [reflexivity |]); cbn;
    split; try reflexivity; destruct m; reflexivity.
Qed.

(** C4, as the code has it: a delete notification makes no call on the store
    and leaves its contents as they are; the call to [deleteEvent] is
    commented out in both revisions. *)
Theorem C4_OnDelete_skips_removal (w : World) (obj : Obj) :
  (storeCalls (final (OnDelete obj w)) = storeCalls w /\
   _store (ew (final (OnDelete obj w))) = _store (ew w)) /\
  (storeCalls (final (Part001.OnDelete obj w)) = storeCalls w /\
   _store (ew (final (Part001.OnDelete obj w))) = _store (ew w)).
Proof.
  destruct obj as [e | ty]; [| split; split; reflexivity].
  split.
  - destruct (OnDelete_branches deleteCounterVar deleteMetric "Event deleted" e
                (negb (isOldEvent (ew w) e)) w) as (w' & Hw' & Hc & Hs).
    change (OnDelete (ObjEvent e) w) with
      ((if negb (isOldEvent (ew w) e)
        then logEvent e "Event deleted" ;; AddInt32 deleteCounterVar 1 ;; Inc deleteMetric
        else Inc oldEventsMetric) w).
    rewrite Hw'. exact (conj Hc Hs).
  - destruct (OnDelete_branches deleteCounterVar deleteMetric "Event deleted" e
                (time.After (time.UTC (LastTimestamp e)) (_startTime (ew w))
                 || (time.Sub (now w) (time.UTC (LastTimestamp e))
                     <? oldEventAgeMinutes * time.Minute)) w)
      as (w' & Hw' & Hc & Hs).
    change (Part001.OnDelete (ObjEvent e) w) with
      ((if time.After (time.UTC (LastTimestamp e)) (_startTime (ew w))
           || (time.Sub (now w) (time.UTC (LastTimestamp e))
               <? oldEventAgeMinutes * time.Minute)
        then logEvent e "Event deleted" ;; AddInt32 deleteCounterVar 1 ;; Inc deleteMetric
        else Inc oldEventsMetric) w).
    rewrite Hw'. exact (conj Hc Hs).
Qed.

(** C4, as stated, fails: with the object still in the store, [OnDelete]
    neither calls [Delete] nor takes the object out. *)
Lemma C4_OnDelete_removal_counterexample :
  let obj := ObjEvent (sampleEvent t_minus4) in
  ~ removed obj w_held (final (OnDelete obj w_held)) /\
  ~ removed obj w_held (final (Part001.OnDelete obj w_held)) /\
  _store (ew (final (OnDelete obj w_held))) !! "default/nginx.16f7126032cf0392"
    = Some (sampleEvent t_minus4).
Proof.
  cbv zeta. split; [| split].
  - intros [Hc _]. vm_compute in Hc. discriminate Hc.
  - intros [Hc _]. vm_compute in Hc. discriminate Hc.
  - vm_compute. reflexivity.
Qed.

Lemma handled_returns x m message obj w o :
  handled x m message obj w o -> returns o.
Proof. intros (w' & H & _). exists w'. exact H. Qed.

Lemma OnDelete_returns x m message e (fresh : bool) w :
  returns ((if fresh then logEvent e message ;; AddInt32 x 1 ;; Inc m
            else Inc oldEventsMetric) w).
Proof.
  destruct (OnDelete_branches x m message e fresh w) as (w' & H & _).
  exists w'. exact H.
Qed.

(** C10: a notification whose object is not an event makes each handler panic
    at its type assertion, before any counter, log record or store call; an
    event object never does.  [OnUpdate] asserts on the new object and never
    looks at the old one. *)
Theorem C10_non_event_object_aborts (w : World) (ty : string) (oldObj : Obj) :
  (aborts w (OnAdd (ObjOther ty) w) /\
   aborts w (OnUpdate oldObj (ObjOther ty) w) /\
   aborts w (OnDelete (ObjOther ty) w) /\
   aborts w (Part001.OnAdd (ObjOther ty) w) /\
   aborts w (Part001.OnUpdate oldObj (ObjOther ty) w) /\
   aborts w (Part001.OnDelete (ObjOther ty) w)) /\
  (forall e : Event,
     returns (OnAdd (ObjEvent e) w) /\
     returns (OnUpdate oldObj (ObjEvent e) w) /\
     returns (OnDelete (ObjEvent e) w) /\
     returns (Part001.OnAdd (ObjEvent e) w) /\
     returns (Part001.OnUpdate oldObj (ObjEvent e) w) /\
     returns (Part001.OnDelete (ObjEvent e) w)).
Proof.
  split.
  - repeat split; eexists; reflexivity.
  - intros e.
    pose (inline := time.After (time.UTC (LastTimestamp e)) (_startTime (ew w))
                    || (time.Sub (now w) (time.UTC (LastTimestamp e))
                        <? oldEventAgeMinutes * time.Minute)).
    split; [exact (handled_returns _ _ _ _ _ _
                     (branches_handled addCounterVar addMetric "Event added" e
                        (negb (isOldEvent (ew w) e)) w ltac:(discriminate))) |].
    split; [exact (handled_returns _ _ _ _ _ _
                     (branches_handled updateCounterVar updateMetric "Event updated" e
                        (negb (isOldEvent (ew w) e)) w ltac:(discriminate))) |].
    split; [exact (OnDelete_returns deleteCounterVar deleteMetric "Event deleted" e
                     (negb (isOldEvent (ew w) e)) w) |].
    split; [exact (handled_returns _ _ _ _ _ _
                     (branches_handled addCounterVar addMetric "Event added" e
                        inline w ltac:(discriminate))) |].
    split; [exact (handled_returns _ _ _ _ _ _
                     (branches_handled updateCounterVar updateMetric "Event updated" e
                        inline w ltac:(discriminate))) |].
    exact (OnDelete_returns deleteCounterVar deleteMetric "Event deleted" e inline w).
Qed.

(** ** Notifications, seen from the rest of the process *)

Lemma handler_frame_refl w : handler_frame w w.
Proof.
  unfold handler_frame. split; [exists []; split; [symmetry; apply app_nil_r | constructor] |].
  repeat split; intros; left; reflexivity.
Qed.

Lemma metric_inc_cases m m' e :
  metric m' (inc_metric m e) = metric m' e \/ metric m' (inc_metric m e) = metric m' e + 1.
Proof. destruct m, m'; cbn; auto. Qed.

Lemma load_store_cases x y v :
  load y (store_var x (add32 (load x v) 1) v) = load y v \/
  load y (store_var x (add32 (load x v) 1) v) = add32 (load y v) 1.
Proof. destruct x, y; cbn; auto. Qed.

(** The branches of a handler, followed by the removal or not, stay within
    the frame. *)
Lemma branches_removal_frame x m message e (fresh : bool) w :
  In message handlerMsgs ->
  handler_frame w
    (final (((if fresh then logEvent e message ;; AddInt32 x 1 ;; Inc m
              else Inc oldEventsMetric) ;;
             deleteEvent (ObjEvent e)) w)).
Proof.
  intros Hmsg. unfold handler_frame.
  destruct fresh; run_handler; cbn -[In];
    (split; [first [ exists []; split; [symmetry; apply app_nil_r | constructor]
                   | eexists; split;
                     [reflexivity | constructor; [exact Hmsg | constructor]] ] |]);
    repeat split; intros;
    rewrite ?metric_set_store;
    first [ reflexivity | left; reflexivity | apply metric_inc_cases
          | apply load_store_cases ].
Qed.

Lemma branches_frame x m message e (fresh : bool) w :
  In message handlerMsgs ->
  handler_frame w
    (final ((if fresh then logEvent e message ;; AddInt32 x 1 ;; Inc m
             else Inc oldEventsMetric) w)).
Proof.
  intros Hmsg. unfold handler_frame.
  destruct fresh; run_handler; cbn -[In];
    (split; [first [ exists []; split; [symmetry; apply app_nil_r | constructor]
                   | eexists; split;
                     [reflexivity | constructor; [exact Hmsg | constructor]] ] |]);
    repeat split; intros;
    first [ reflexivity | left; reflexivity | apply metric_inc_cases
          | apply load_store_cases ].
Qed.

(** The informer's own update touches the store and nothing else. *)
Lemma informerStore_frame n w :
  exists w1,
    informerStore n w = Done tt w1 /\
    output w1 = output w /\ ticker w1 = ticker w /\ stopChan w1 = stopChan w /\
    statsIntervalSeconds (ew w1) = statsIntervalSeconds (ew w) /\
    vars w1 = vars w /\
    (forall m, metric m (ew w1) = metric m (ew w)).
Proof.
  unfold informerStore, modify. eexists. split; [reflexivity |].
  destruct n as [obj | oldObj obj | obj]; destruct obj as [e | ty]; cbn;
    repeat split; intros; rewrite ?metric_set_store; reflexivity.
Qed.

Lemma frame_after_store w w1 w' :
  output w1 = output w -> ticker w1 = ticker w -> stopChan w1 = stopChan w ->
  statsIntervalSeconds (ew w1) = statsIntervalSeconds (ew w) ->
  vars w1 = vars w ->
  (forall m, metric m (ew w1) = metric m (ew w)) ->
  handler_frame w1 w' -> handler_frame w w'.
Proof.
  unfold handler_frame. intros Ho Ht Hs Hi Hv Hm.
  rewrite Ho, Ht, Hs, Hi, Hv. intros (H1 & H2 & H3 & H4 & H5 & H6).
  repeat split; try assumption. intros m. rewrite <- Hm. apply H6.
Qed.

(** A delivered notification stays within the frame, whatever its object and
    whichever revision handles it. *)
Lemma dispatch_frame h n w :
  watcherHandler h -> handler_frame w (final (dispatch h n w)).
Proof.
  intros Hh.
  destruct (informerStore_frame n w) as (w1 & Hw1 & Ho & Ht & Hs & Hi & Hv & Hm).
  apply (frame_after_store w w1); try assumption.
  unfold dispatch, bind. rewrite Hw1.
  pose (inline e := time.After (time.UTC (LastTimestamp e)) (_startTime (ew w1))
                    || (time.Sub (now w1) (time.UTC (LastTimestamp e))
                        <? oldEventAgeMinutes * time.Minute)).
  destruct Hh as [-> | ->]; destruct n as [obj | oldObj obj | obj];
    destruct obj as [e | ty]; try apply handler_frame_refl.
  - exact (branches_removal_frame addCounterVar addMetric "Event added" e
             (negb (isOldEvent (ew w1) e)) w1 ltac:(cbn; tauto)).
  - exact (branches_removal_frame updateCounterVar updateMetric "Event updated" e
             (negb (isOldEvent (ew w1) e)) w1 ltac:(cbn; tauto)).
  - exact (branches_frame deleteCounterVar deleteMetric "Event deleted" e
             (negb (isOldEvent (ew w1) e)) w1 ltac:(cbn; tauto)).
  - exact (branches_removal_frame addCounterVar addMetric "Event added" e
             (inline e) w1 ltac:(cbn; tauto)).
  - exact (branches_removal_frame updateCounterVar updateMetric "Event updated" e
             (inline e) w1 ltac:(cbn; tauto)).
  - exact (branches_frame deleteCounterVar deleteMetric "Event deleted" e
             (inline e) w1 ltac:(cbn; tauto)).
Qed.

(** ** The stats reporter, step by step *)

Ltac run_reporter :=
  unfold Part001.runStatsPrint_enter, Part001.runStatsPrint_select, Part001.NewTicker,
    Part001.Stop, Part001.receiveTick, ListKeys, LoadInt32, Info,
    bind, ret, gets, modify, panic.

Lemma enter_disabled w :
  statsIntervalSeconds (ew w) <= 0 ->
  Part001.runStatsPrint_enter w =
  Done Part001.Returned (write_log (infoRecord w "Disabling stats" []) w).
Proof.
  intros H. run_reporter.
  destruct (Z.leb_spec (statsIntervalSeconds (ew w)) 0); [reflexivity | lia].
Qed.

Lemma enter_running w :
  0 < statsIntervalSeconds (ew w) ->
  0 < wrap64 (statsIntervalSeconds (ew w) * time.Second) ->
  Part001.runStatsPrint_enter w =
  Done (Part001.Selecting 0 0 0)
       (write_log (infoRecord w "Starting stats" []) (set_ticker (Ticking false) w)).
Proof.
  intros H1 H2. run_reporter.
  destruct (Z.leb_spec (statsIntervalSeconds (ew w)) 0); [lia |].
  destruct (Z.leb_spec (wrap64 (statsIntervalSeconds (ew w) * time.Second)) 0);
    [lia | reflexivity].
Qed.

Lemma enter_panics w :
  0 < statsIntervalSeconds (ew w) ->
  wrap64 (statsIntervalSeconds (ew w) * time.Second) <= 0 ->
  Part001.runStatsPrint_enter w = Panic "non-positive interval for NewTicker" w.
Proof.
  intros H1 H2. run_reporter.
  destruct (Z.leb_spec (statsIntervalSeconds (ew w)) 0); [lia |].
  destruct (Z.leb_spec (wrap64 (statsIntervalSeconds (ew w) * time.Second)) 0);
    [reflexivity | lia].
Qed.

Lemma select_stop pa pu pd w :
  Part001.runStatsPrint_select Part001.stopChanCase pa pu pd w =
  Done Part001.Returned
    (let w1 := write_log (infoRecord w "Stopping stats" []) w in
     match ticker w1 with
     | Ticking p => set_ticker (Stopped p) w1
     | _ => w1
     end).
Proof. reflexivity. Qed.

(** The world after the three records of a snapshot. *)
Lemma select_tick pa pu pd w :
  exists w',
    Part001.runStatsPrint_select Part001.tickerCase pa pu pd w =
    Done (Part001.Selecting (pkg.addCounter (vars w)) (pkg.updateCounter (vars w))
            (pkg.deleteCounter (vars w))) w' /\
    output w' =
    output w ++
      [ infoRecord w Part001.msgStoreSize
          [Z.of_nat (length (map fst (map_to_list (_store (ew w)))))];
        infoRecord w Part001.msgCumulative
          [pkg.addCounter (vars w); pkg.updateCounter (vars w);
           pkg.deleteCounter (vars w)];
        infoRecord w Part001.msgDelta
          [sub32 (pkg.addCounter (vars w)) pa; sub32 (pkg.updateCounter (vars w)) pu;
           sub32 (pkg.deleteCounter (vars w)) pd] ] /\
    vars w' = vars w /\ ew w' = ew w /\ stopChan w' = stopChan w /\
    ticker w' = match ticker w with
                | Ticking _ => Ticking false
                | Stopped _ => Stopped false
                | NoTicker => NoTicker
                end.
Proof.
  run_reporter.
  destruct (ticker w) eqn:Ht; (eexists; split; [reflexivity |]); cbn;
    rewrite ?Ht; rewrite <- ?app_assoc; repeat split; reflexivity.
Qed.

(** The reporter never writes a counter. *)
Lemma reporter_keeps_counters w :
  (vars (final (Part001.runStatsPrint_enter w)) = vars w /\
   ew (final (Part001.runStatsPrint_enter w)) = ew w) /\
  (forall c pa pu pd,
     vars (final (Part001.runStatsPrint_select c pa pu pd w)) = vars w /\
     ew (final (Part001.runStatsPrint_select c pa pu pd w)) = ew w).
Proof.
  split.
  - destruct (Z.leb_spec (statsIntervalSeconds (ew w)) 0) as [H | H].
    + rewrite (enter_disabled w H). split; reflexivity.
    + destruct (Z.leb_spec (wrap64 (statsIntervalSeconds (ew w) * time.Second)) 0)
        as [H' | H'].
      * rewrite (enter_panics w H H'). split; reflexivity.
      * rewrite (enter_running w H H'). split; reflexivity.
  - intros [|] pa pu pd.
    + rewrite select_stop. cbn. destruct (ticker w); split; reflexivity.
    + destruct (select_tick pa pu pd w) as (w' & -> & _ & Hv & He & _).
      split; assumption.
Qed.

Lemma final_afterHandler s o : world (afterHandler s o) = final o.
Proof. destruct o; reflexivity. Qed.

Lemma final_afterReporter o : world (afterReporter o) = final o.
Proof. destruct o; reflexivity. Qed.

(** Every step of the process moves each counter by nothing or by one
    increment. *)
Lemma step_counters h s a s' :
  watcherHandler h -> step h s a = Some s' ->
  (forall x, load x (vars (world s')) = load x (vars (world s)) \/
             load x (vars (world s')) = add32 (load x (vars (world s))) 1) /\
  (forall m, metric m (ew (world s')) = metric m (ew (world s)) \/
             metric m (ew (world s')) = metric m (ew (world s)) + 1).
Proof.
  intros Hh. unfold step. destruct (halted s); [discriminate |].
  assert (Hsame : forall w', vars w' = vars (world s) -> ew w' = ew (world s) ->
             (forall x, load x (vars w') = load x (vars (world s)) \/
                        load x (vars w') = add32 (load x (vars (world s))) 1) /\
             (forall m, metric m (ew w') = metric m (ew (world s)) \/
                        metric m (ew w') = metric m (ew (world s)) + 1)).
  { intros w' -> ->. split; intros; left; reflexivity. }
  destruct a as [n | t | | | | c].
  - intros [= <-]. rewrite final_afterHandler.
    destruct (dispatch_frame h n (world s) Hh) as (_ & _ & _ & _ & Hv & Hm).
    exact (conj Hv Hm).
  - intros [= <-]. apply Hsame; reflexivity.
  - destruct (reporter s); try discriminate. intros [= <-].
    rewrite final_afterReporter. apply Hsame; apply reporter_keeps_counters.
  - destruct (ticker (world s)); try discriminate. intros [= <-].
    apply Hsame; reflexivity.
  - destruct (stopChan (world s)); try discriminate. intros [= <-].
    apply Hsame; reflexivity.
  - destruct (reporter s) as [| pa pu pd |]; try discriminate.
    destruct (Part001.ready c (world s)); try discriminate. intros [= <-].
    rewrite final_afterReporter. apply Hsame; apply reporter_keeps_counters.
Qed.

Lemma add32_succ v : MinInt32 <= v < MaxInt32 -> add32 v 1 = v + 1.
Proof.
  intros H. unfold add32. apply wrap32_id. unfold is_int32. lia.
Qed.

(** C8, as the code has it: every operation of the process leaves each of the
    four counters where it was or adds one to it, so none is ever reset or
    decremented; the old-events counter and the three metrics never decrease,
    and each [int32] counter never decreases while it is below 2147483647,
    where the increment wraps around. *)
Theorem C8_counters_only_incremented h s a s' :
  watcherHandler h -> step h s a = Some s' ->
  (forall x, load x (vars (world s')) = load x (vars (world s)) \/
             load x (vars (world s')) = add32 (load x (vars (world s))) 1) /\
  (forall m, metric m (ew (world s')) = metric m (ew (world s)) \/
             metric m (ew (world s')) = metric m (ew (world s)) + 1) /\
  (forall m, metric m (ew (world s)) <= metric m (ew (world s'))) /\
  (forall x, MinInt32 <= load x (vars (world s)) < MaxInt32 ->
             load x (vars (world s)) <= load x (vars (world s'))).
Proof.
  intros Hh Hstep. destruct (step_counters h s a s' Hh Hstep) as [Hv Hm].
  split; [exact Hv |]. split; [exact Hm |]. split.
  - intros m. destruct (Hm m) as [-> | ->]; lia.
  - intros x Hx. destruct (Hv x) as [-> | ->]; [lia |].
    rewrite (add32_succ _ Hx). lia.
Qed.

Lemma C8_counters_only_incremented_witness :
  exists s',
    step cmdHandler (boot "" 10 t_start)
      (Deliver (Added (ObjEvent (sampleEvent t_minus4)))) = Some s' /\
    pkg.addCounter (vars (world s')) = 1 /\
    0 <= pkg.updateCounter (vars (world s')).
Proof.
  eexists. split; [reflexivity |]. split; [reflexivity |].
  exact (proj2 (proj2 (proj2
           (C8_counters_only_incremented cmdHandler (boot "" 10 t_start)
              (Deliver (Added (ObjEvent (sampleEvent t_minus4)))) _
              (or_introl eq_refl) eq_refl)))
           updateCounterVar ltac:(unfold MinInt32, MaxInt32; cbn; lia)).
Defined.

(** C8, as stated, fails: at 2147483647 one more reported add notification
    takes the add counter down to -2147483648. *)
Lemma C8_monotone_counterexample :
  exists s',
    step cmdHandler s_full (Deliver (Added (ObjEvent (sampleEvent t_minus4)))) = Some s' /\
    pkg.addCounter (vars (world s_full)) = 2147483647 /\
    pkg.addCounter (vars (world s')) = -2147483648 /\
    pkg.addCounter (vars (world s')) < pkg.addCounter (vars (world s_full)).
Proof.
  eexists. split; [reflexivity |]. vm_compute. repeat split.
Qed.

(** ** Snapshots in the log *)

Lemma cumulatives_app l1 l2 : cumulatives (l1 ++ l2) = cumulatives l1 ++ cumulatives l2.
Proof. apply flat_map_app. Qed.

Lemma deltas_app l1 l2 : deltas (l1 ++ l2) = deltas l1 ++ deltas l2.
Proof. apply flat_map_app. Qed.

Lemma snapshots_app l1 l2 : snapshots (l1 ++ l2) = snapshots l1 ++ snapshots l2.
Proof. apply List.filter_app. Qed.

Lemma countMsg_app m l1 l2 : countMsg m (l1 ++ l2) = (countMsg m l1 + countMsg m l2)%nat.
Proof. unfold countMsg. rewrite List.filter_app. apply length_app. Qed.

(** A record with one of the handlers' messages is no stats record. *)
Lemma handler_record r :
  In (msg r) handlerMsgs ->
  isSnapshot r = false /\
  statsTriple Part001.msgCumulative r = [] /\
  statsTriple Part001.msgDelta r = [] /\
  String.eqb (msg r) "Disabling stats" = false /\
  String.eqb (msg r) "Stopping stats" = false.
Proof.
  unfold isSnapshot, statsTriple. cbn.
  intros [H | [H | [H | [H | []]]]]; rewrite <- H; repeat split; reflexivity.
Qed.

Lemma handler_records l :
  Forall (fun r => In (msg r) handlerMsgs) l ->
  snapshots l = [] /\ cumulatives l = [] /\ deltas l = [] /\
  countMsg "Disabling stats" l = 0%nat /\ countMsg "Stopping stats" l = 0%nat.
Proof.
  induction 1 as [| r l Hr _ (IH1 & IH2 & IH3 & IH4 & IH5)]; [repeat split |].
  destruct (handler_record r Hr) as (H1 & H2 & H3 & H4 & H5).
  unfold snapshots, cumulatives, deltas, countMsg in *. cbn [List.filter flat_map].
  rewrite H1, H2, H3, H4, H5. cbn. repeat split; assumption.
Qed.

Lemma last_cons_default {A} (a d : A) l : List.last (a :: l) d = List.last l a.
Proof.
  revert a d. induction l as [| b l IH]; intros a d; [reflexivity |].
  change (List.last (a :: b :: l) d) with (List.last (b :: l) d).
  rewrite (IH b d), (IH b a). reflexivity.
Qed.

Lemma diffs_snoc minus p cs c :
  diffs minus p (cs ++ [c]) = diffs minus p cs ++ [sub3 minus c (List.last cs p)].
Proof.
  revert p. induction cs as [| c0 cs IH]; intros p; [reflexivity |].
  cbn [app diffs]. rewrite IH, last_cons_default. reflexivity.
Qed.

Lemma diffs_plain p cs :
  int32_3 p -> nonneg3 p -> Forall int32_3 cs -> Forall nonneg3 cs ->
  diffs sub32 p cs = diffs Z.sub p cs.
Proof.
  intros Hp Hn Hi. revert p Hp Hn.
  induction Hi as [| c cs Hc _ IH]; intros p Hp Hn Hnn; [reflexivity |].
  inversion Hnn as [| ? ? Hcn Hrest]; subst. cbn [diffs].
  rewrite (IH c Hc Hcn Hrest). f_equal.
  destruct c as [[a u] d], p as [[pa pu] pd].
  unfold int32_3, nonneg3, is_int32, MinInt32, MaxInt32 in *. cbn [sub3].
  unfold sub32. rewrite !wrap32_id; [reflexivity | | |];
    unfold is_int32, MinInt32, MaxInt32; lia.
Qed.

(** ** The invariant of the stats reporter *)

Lemma stats_inv_boot ns statsSeconds clock : stats_inv (boot ns statsSeconds clock).
Proof.
  unfold stats_inv. cbn. repeat split; try constructor.
  all: destruct x; cbn; unfold MinInt32, MaxInt32; lia.
Qed.

(** Records that are no snapshot leave the invariant alone, whether the
    reporter stays where it is, returns, or enters its loop. *)
Lemma stats_inv_quiet s w' l r hl :
  stats_inv s ->
  output w' = output (world s) ++ l ->
  cumulatives l = [] -> deltas l = [] ->
  (forall x, is_int32 (load x (vars w'))) ->
  r = reporter s \/ r = Part001.Returned \/
  (r = Part001.Selecting 0 0 0 /\ reporter s = Part001.Idle) ->
  stats_inv {| world := w'; reporter := r; halted := hl |}.
Proof.
  intros (Hd & Hi & Hv & Hr) Ho Hc Hdl Hv' Hrep.
  unfold stats_inv. cbn [world reporter].
  rewrite Ho, cumulatives_app, deltas_app, Hc, Hdl, !app_nil_r.
  split; [exact Hd | split; [exact Hi | split; [exact Hv' |]]].
  destruct Hrep as [-> | [-> | [-> Hidle]]]; [exact Hr | exact I |].
  rewrite Hidle in Hr. rewrite Hr. reflexivity.
Qed.

Lemma stats_inv_tick s pa pu pd w' :
  stats_inv s ->
  reporter s = Part001.Selecting pa pu pd ->
  output w' =
    output (world s) ++
      [ infoRecord (world s) Part001.msgStoreSize
          [Z.of_nat (length (map fst (map_to_list (_store (ew (world s))))))];
        infoRecord (world s) Part001.msgCumulative
          [pkg.addCounter (vars (world s)); pkg.updateCounter (vars (world s));
           pkg.deleteCounter (vars (world s))];
        infoRecord (world s) Part001.msgDelta
          [sub32 (pkg.addCounter (vars (world s))) pa;
           sub32 (pkg.updateCounter (vars (world s))) pu;
           sub32 (pkg.deleteCounter (vars (world s))) pd] ] ->
  vars w' = vars (world s) ->
  stats_inv {| world := w';
               reporter := Part001.Selecting (pkg.addCounter (vars (world s)))
                             (pkg.updateCounter (vars (world s)))
                             (pkg.deleteCounter (vars (world s)));
               halted := None |}.
Proof.
  intros (Hd & Hi & Hv & Hr) Hrep Ho Hvars.
  rewrite Hrep in Hr. unfold stats_inv. cbn [world reporter].
  rewrite Ho, Hvars, cumulatives_app, deltas_app.
  change (cumulatives [_; _; _]) with
    [(pkg.addCounter (vars (world s)), pkg.updateCounter (vars (world s)),
      pkg.deleteCounter (vars (world s)))].
  change (deltas [_; _; _]) with
    [(sub32 (pkg.addCounter (vars (world s))) pa,
      sub32 (pkg.updateCounter (vars (world s))) pu,
      sub32 (pkg.deleteCounter (vars (world s))) pd)].
  split; [| split; [| split]].
  - rewrite diffs_snoc, Hr, Hd. reflexivity.
  - apply Forall_app. split; [exact Hi |]. constructor; [| constructor].
    exact (conj (Hv addCounterVar) (conj (Hv updateCounterVar) (Hv deleteCounterVar))).
  - exact Hv.
  - apply last_last.
Qed.

Lemma stats_inv_step h s a s' :
  watcherHandler h -> stats_inv s -> step h s a = Some s' -> stats_inv s'.
Proof.
  intros Hh Hinv. unfold step. destruct (halted s); [discriminate |].
  assert (Hv : forall x, is_int32 (load x (vars (world s)))) by apply Hinv.
  destruct a as [n | t | | | | c].
  - intros [= <-].
    destruct (dispatch_frame h n (world s) Hh) as ((l & Hl & Hmsgs) & _ & _ & _ & Hvars & _).
    destruct (handler_records l Hmsgs) as (_ & Hc & Hd & _).
    assert (Hv' : forall x, is_int32 (load x (vars (final (dispatch h n (world s)))))).
    { intros x. destruct (Hvars x) as [-> | ->]; [apply Hv | apply wrap32_range]. }
    unfold afterHandler. destruct (dispatch h n (world s)) as [[] w' | reason w'];
      cbn [final] in *;
      apply (stats_inv_quiet s w' l); auto.
  - intros [= <-]. apply (stats_inv_quiet s _ []); auto.
    cbn. symmetry. apply app_nil_r.
  - destruct (reporter s) eqn:Hrep; try discriminate. intros [= <-].
    destruct (Z.leb_spec (statsIntervalSeconds (ew (world s))) 0) as [H | H].
    + rewrite (enter_disabled _ H). cbn [afterReporter].
      apply (stats_inv_quiet s _ [infoRecord (world s) "Disabling stats" []]); auto.
    + destruct (Z.leb_spec (wrap64 (statsIntervalSeconds (ew (world s)) * time.Second)) 0)
        as [H' | H'].
      * rewrite (enter_panics _ H H'). cbn [afterReporter].
        apply (stats_inv_quiet s _ []); auto. symmetry. apply app_nil_r.
      * rewrite (enter_running _ H H'). cbn [afterReporter].
        apply (stats_inv_quiet s _ [infoRecord (world s) "Starting stats" []]); auto.
  - destruct (ticker (world s)); try discriminate. intros [= <-].
    apply (stats_inv_quiet s _ []); auto. cbn. symmetry. apply app_nil_r.
  - destruct (stopChan (world s)); try discriminate. intros [= <-].
    apply (stats_inv_quiet s _ []); auto. cbn. symmetry. apply app_nil_r.
  - destruct (reporter s) as [| pa pu pd |] eqn:Hrep; try discriminate.
    destruct (Part001.ready c (world s)); try discriminate. intros [= <-].
    destruct c.
    + rewrite select_stop. cbn [afterReporter].
      apply (stats_inv_quiet s _ [infoRecord (world s) "Stopping stats" []]); auto;
        cbn; destruct (ticker (world s)); auto.
    + destruct (select_tick pa pu pd (world s)) as (w' & -> & Ho & Hvars & _).
      cbn [afterReporter]. apply (stats_inv_tick s pa pu pd); assumption.
Qed.

Lemma stats_inv_run h acts :
  watcherHandler h ->
  forall s s', stats_inv s -> run h s acts = Some s' -> stats_inv s'.
Proof.
  intros Hh. induction acts as [| a acts IH]; intros s s' Hinv; cbn [run].
  - intros [= <-]. exact Hinv.
  - destruct (step h s a) as [s1 |] eqn:Hstep; [| discriminate].
    apply IH. exact (stats_inv_step h s a s1 Hh Hinv Hstep).
Qed.

(** C5, as the code has it: in every log the process produces, the deltas of
    the snapshots are the cumulative values of the same snapshot minus those
    of the snapshot before, and those of the first snapshot minus zero: the
    first delta is the first cumulative triple itself.  The subtraction is
    Go's on [int32], which wraps; as long as no counter has wrapped (all
    cumulative values are non-negative) it is the subtraction of the
    integers. *)
Theorem C5_snapshot_deltas h ns statsSeconds clock acts s :
  watcherHandler h ->
  run h (boot ns statsSeconds clock) acts = Some s ->
  let cums := cumulatives (output (world s)) in
  let dels := deltas (output (world s)) in
  dels = diffs sub32 (0, 0, 0) cums /\
  (forall c, head cums = Some c -> head dels = Some c) /\
  (Forall nonneg3 cums -> dels = diffs Z.sub (0, 0, 0) cums).
Proof.
  intros Hh Hrun cums dels.
  destruct (stats_inv_run h acts Hh _ _ (stats_inv_boot ns statsSeconds clock) Hrun)
    as (Hd & Hi & _ & _).
  fold cums in Hd, Hi. fold dels in Hd.
  split; [exact Hd |]. split.
  - intros c Hc. rewrite Hd. destruct cums as [| c0 rest]; [discriminate |].
    injection Hc as ->. inversion Hi as [| ? ? Hc32 _]; subst.
    destruct c as [[a u] d]. destruct Hc32 as (Ha & Hu & Hdd).
    cbn. unfold sub32. rewrite !Z.sub_0_r, !wrap32_id by assumption. reflexivity.
  - intros Hnn. rewrite Hd. apply diffs_plain; try assumption.
    + repeat split; unfold MinInt32, MaxInt32; lia.
    + repeat split; lia.
Qed.

Lemma C5_snapshot_deltas_witness :
  exists s,
    run part001Handler (boot "" 10 t_start) acts_two_ticks = Some s /\
    cumulatives (output (world s)) = [(2, 0, 0); (2, 1, 0)] /\
    deltas (output (world s)) = [(2, 0, 0); (0, 1, 0)].
Proof.
  destruct (run part001Handler (boot "" 10 t_start) acts_two_ticks) as [s |] eqn:Hrun;
    [| vm_compute in Hrun; discriminate Hrun].
  exists s. split; [reflexivity |].
  destruct (C5_snapshot_deltas part001Handler "" 10 t_start acts_two_ticks s
              (or_intror eq_refl) Hrun) as (Hd & _ & _).
  assert (Hc : cumulatives (output (world s)) = [(2, 0, 0); (2, 1, 0)]).
  { vm_compute in Hrun. injection Hrun as <-. vm_compute. reflexivity. }
  split; [exact Hc |]. rewrite Hd, Hc. vm_compute. reflexivity.
Defined.

(** ** After the reporter has returned *)

(** Once the reporter has returned and its ticker does not tick, the only
    records that reach the log are the handlers'. *)
Lemma returned_step h s a s' :
  watcherHandler h ->
  reporter s = Part001.Returned -> notTicking (ticker (world s)) ->
  step h s a = Some s' ->
  reporter s' = Part001.Returned /\
  ticker (world s') = ticker (world s) /\
  exists l, output (world s') = output (world s) ++ l /\
            Forall (fun r => In (msg r) handlerMsgs) l.
Proof.
  intros Hh Hrep Htick. unfold step. destruct (halted s); [discriminate |].
  assert (Hnil : forall w' : World, output w' = output (world s) ->
            exists l, output w' = output (world s) ++ l /\
                      Forall (fun r => In (msg r) handlerMsgs) l).
  { intros w' ->. exists []. split; [symmetry; apply app_nil_r | constructor]. }
  destruct a as [n | t | | | | c].
  - intros [= <-].
    destruct (dispatch_frame h n (world s) Hh) as (Hl & Ht & _).
    rewrite final_afterHandler.
    split; [destruct (dispatch h n (world s)); exact Hrep |]. split; assumption.
  - intros [= <-]. cbn. split; [exact Hrep |]. split; [reflexivity |].
    apply Hnil. reflexivity.
  - rewrite Hrep. discriminate.
  - destruct (ticker (world s)); try discriminate. contradiction.
  - destruct (stopChan (world s)); try discriminate. intros [= <-].
    cbn. split; [exact Hrep |]. split; [reflexivity |]. apply Hnil. reflexivity.
  - rewrite Hrep. discriminate.
Qed.

Lemma returned_run h acts :
  watcherHandler h ->
  forall s s',
    reporter s = Part001.Returned -> notTicking (ticker (world s)) ->
    run h s acts = Some s' ->
    reporter s' = Part001.Returned /\
    ticker (world s') = ticker (world s) /\
    exists l, output (world s') = output (world s) ++ l /\
              Forall (fun r => In (msg r) handlerMsgs) l.
Proof.
  intros Hh. induction acts as [| a acts IH]; intros s s' Hrep Htick; cbn [run].
  - intros [= <-]. split; [exact Hrep |]. split; [reflexivity |].
    exists []. split; [symmetry; apply app_nil_r | constructor].
  - destruct (step h s a) as [s1 |] eqn:Hstep; [| discriminate]. intros Hrun.
    destruct (returned_step h s a s1 Hh Hrep Htick Hstep) as (Hrep1 & Ht1 & l1 & Ho1 & Hl1).
    assert (Htick1 : notTicking (ticker (world s1))) by (rewrite Ht1; exact Htick).
    destruct (IH s1 s' Hrep1 Htick1 Hrun) as (Hrep' & Ht' & l2 & Ho2 & Hl2).
    split; [exact Hrep' |]. split; [congruence |].
    exists (l1 ++ l2). split.
    + rewrite Ho2, Ho1. symmetry. apply app_assoc.
    + apply Forall_app. split; assumption.
Qed.

(** What the log shows after a run in which the reporter had returned. *)
Lemma returned_log h acts s s' :
  watcherHandler h ->
  reporter s = Part001.Returned -> notTicking (ticker (world s)) ->
  run h s acts = Some s' ->
  reporter s' = Part001.Returned /\
  ticker (world s') = ticker (world s) /\
  snapshots (output (world s')) = snapshots (output (world s)) /\
  countMsg "Disabling stats" (output (world s')) =
    countMsg "Disabling stats" (output (world s)) /\
  countMsg "Stopping stats" (output (world s')) =
    countMsg "Stopping stats" (output (world s)).
Proof.
  intros Hh Hrep Htick Hrun.
  destruct (returned_run h acts Hh s s' Hrep Htick Hrun) as (Hrep' & Ht & l & Ho & Hl).
  destruct (handler_records l Hl) as (Hs & _ & _ & Hd & Hst).
  split; [exact Hrep' |]. split; [exact Ht |].
  rewrite Ho, snapshots_app, !countMsg_app, Hs, Hd, Hst, app_nil_r.
  repeat split; lia.
Qed.

(** C6: with a stats interval of zero or less, the reporter logs one record
    that stats are disabled and returns without making a ticker; whatever the
    process does afterwards, no snapshot record is ever logged, the disabled
    record stays the only one of its kind, and there is still no ticker. *)
Theorem C6_stats_disabled h s :
  watcherHandler h ->
  halted s = None -> reporter s = Part001.Idle -> ticker (world s) = NoTicker ->
  statsIntervalSeconds (ew (world s)) <= 0 ->
  exists s1,
    step h s Spawn = Some s1 /\
    reporter s1 = Part001.Returned /\ halted s1 = None /\
    output (world s1) = output (world s) ++ [infoRecord (world s) "Disabling stats" []] /\
    ticker (world s1) = NoTicker /\
    forall acts s2,
      run h s1 acts = Some s2 ->
      reporter s2 = Part001.Returned /\
      ticker (world s2) = NoTicker /\
      snapshots (output (world s2)) = snapshots (output (world s)) /\
      countMsg "Disabling stats" (output (world s2)) =
        S (countMsg "Disabling stats" (output (world s))).
Proof.
  intros Hh Hhalt Hrep Htick Hint.
  eexists. split.
  { unfold step. rewrite Hhalt, Hrep, (enter_disabled _ Hint). reflexivity. }
  cbn [afterReporter reporter halted world].
  split; [reflexivity |]. split; [reflexivity |]. split; [reflexivity |].
  split; [exact Htick |].
  intros acts s2 Hrun.
  apply (returned_log h acts _ s2 Hh) in Hrun; [| reflexivity | cbn; rewrite Htick; exact I].
  destruct Hrun as (Hrep2 & Ht2 & Hs2 & Hd2 & _).
  cbn [world output write_log ticker] in Ht2, Hs2, Hd2.
  split; [exact Hrep2 |]. split; [congruence |].
  rewrite Hs2, Hd2, snapshots_app, countMsg_app. cbn.
  rewrite app_nil_r. split; [reflexivity | lia].
Qed.

Lemma C6_stats_disabled_witness :
  exists s1,
    step cmdHandler (boot "" 0 t_start) Spawn = Some s1 /\
    map msg (output (world s1)) = ["Disabling stats"] /\
    forall s2,
      run cmdHandler s1
        [Deliver (Added (ObjEvent (sampleEvent t_minus4))); CloseStop] = Some s2 ->
      snapshots (output (world s2)) = [].
Proof.
  destruct (C6_stats_disabled cmdHandler (boot "" 0 t_start) (or_introl eq_refl)
              eq_refl eq_refl eq_refl ltac:(cbn; lia))
    as (s1 & Hstep & _ & _ & Ho & _ & Hlater).
  exists s1. split; [exact Hstep |]. split.
  - rewrite Ho. reflexivity.
  - intros s2 Hrun. exact (proj1 (proj2 (proj2 (Hlater _ s2 Hrun)))).
Defined.

(** C7, as the code has it: when the [select] of the reporter takes the stop
    case, it logs that stats are stopping, stops the ticker and returns, and
    from then on no snapshot is logged and the ticker stays stopped, whether
    or not a tick was waiting. *)
Theorem C7_stop_taken h s pa pu pd :
  watcherHandler h ->
  halted s = None -> reporter s = Part001.Selecting pa pu pd ->
  stopChan (world s) = true ->
  exists s1,
    step h s (Select Part001.stopChanCase) = Some s1 /\
    reporter s1 = Part001.Returned /\ halted s1 = None /\
    output (world s1) = output (world s) ++ [infoRecord (world s) "Stopping stats" []] /\
    notTicking (ticker (world s1)) /\
    forall acts s2,
      run h s1 acts = Some s2 ->
      reporter s2 = Part001.Returned /\
      ticker (world s2) = ticker (world s1) /\
      snapshots (output (world s2)) = snapshots (output (world s)) /\
      countMsg "Stopping stats" (output (world s2)) =
        S (countMsg "Stopping stats" (output (world s))).
Proof.
  intros Hh Hhalt Hrep Hstop.
  pose (W1 := let w1 := write_log (infoRecord (world s) "Stopping stats" []) (world s) in
              match ticker w1 with
              | Ticking p => set_ticker (Stopped p) w1
              | _ => w1
              end).
  assert (Hstep : step h s (Select Part001.stopChanCase) =
                  Some {| world := W1; reporter := Part001.Returned; halted := None |}).
  { unfold step. rewrite Hhalt, Hrep. cbn [Part001.ready]. rewrite Hstop, select_stop.
    reflexivity. }
  assert (Hout : output W1 =
                 output (world s) ++ [infoRecord (world s) "Stopping stats" []]).
  { subst W1. cbn. destruct (ticker (world s)); reflexivity. }
  assert (Hnt : notTicking (ticker W1)).
  { subst W1. cbn. destruct (ticker (world s)) eqn:Ht; cbn; rewrite ?Ht; exact I. }
  clearbody W1.
  exists {| world := W1; reporter := Part001.Returned; halted := None |}.
  cbn [reporter halted world].
  split; [exact Hstep |]. split; [reflexivity |]. split; [reflexivity |].
  split; [exact Hout |]. split; [exact Hnt |].
  intros acts s2 Hrun.
  apply (returned_log h acts _ s2 Hh) in Hrun; [| reflexivity | exact Hnt].
  destruct Hrun as (Hrep2 & Ht2 & Hs2 & _ & Hst2).
  cbn [world] in Ht2, Hs2, Hst2.
  split; [exact Hrep2 |]. split; [exact Ht2 |].
  rewrite Hs2, Hst2, Hout, snapshots_app, countMsg_app. cbn.
  rewrite app_nil_r. split; [reflexivity | lia].
Qed.

Lemma C7_stop_taken_witness :
  Part001.ready Part001.tickerCase (world s_stop_with_tick_pending) = true /\
  exists s1,
    step part001Handler s_stop_with_tick_pending (Select Part001.stopChanCase) = Some s1 /\
    reporter s1 = Part001.Returned /\
    snapshots (output (world s1)) = [].
Proof.
  split; [reflexivity |].
  destruct (C7_stop_taken part001Handler s_stop_with_tick_pending 0 0 0
              (or_intror eq_refl) eq_refl eq_refl eq_refl)
    as (s1 & Hstep & Hrep & _ & _ & _ & Hlater).
  exists s1. split; [exact Hstep |]. split; [exact Hrep |].
  exact (proj1 (proj2 (proj2 (Hlater [] s1 eq_refl)))).
Defined.

(** C7, as stated, fails: with [stopChan] closed and a tick waiting, the
    [select] may proceed with the tick, and a snapshot is logged after the
    stop signal; only the next round logs that stats are stopping. *)
Lemma C7_snapshot_after_stop_counterexample :
  run part001Handler (boot "" 10 t_start) acts_stop_with_tick_pending
    = Some s_stop_with_tick_pending /\
  stopChan (world s_stop_with_tick_pending) = true /\
  snapshots (output (world s_stop_with_tick_pending)) = [] /\
  exists s2 s3,
    step part001Handler s_stop_with_tick_pending (Select Part001.tickerCase) = Some s2 /\
    map msg (snapshots (output (world s2))) =
      [Part001.msgStoreSize; Part001.msgCumulative; Part001.msgDelta] /\
    step part001Handler s2 (Select Part001.stopChanCase) = Some s3 /\
    map msg (output (world s3)) =
      ["Starting stats"; Part001.msgStoreSize; Part001.msgCumulative;
       Part001.msgDelta; "Stopping stats"].
Proof.
  split; [vm_compute; reflexivity |]. split; [reflexivity |]. split; [reflexivity |].
  eexists. eexists.
  split; [vm_compute; reflexivity |]. split; [vm_compute; reflexivity |].
  split; vm_compute; reflexivity.
Qed.

(** ** How the add counter gets to its largest value *)

Lemma wrap32_add_l x y : wrap32 (wrap32 x + y) = wrap32 (x + y).
Proof.
  unfold wrap32.
  replace ((x + 2 ^ 31) mod 2 ^ 32 - 2 ^ 31 + y + 2 ^ 31)
    with ((x + 2 ^ 31) mod 2 ^ 32 + y) by lia.
  replace (x + y + 2 ^ 31) with ((x + 2 ^ 31) + y) by lia.
  rewrite Zplus_mod_idemp_l. reflexivity.
Qed.

(** [OnAdd] on an event that is not old. *)
Lemma OnAdd_fresh w e :
  isOldEvent (ew w) e = false ->
  exists w',
    OnAdd (ObjEvent e) w = Done tt w' /\
    _startTime (ew w') = _startTime (ew w) /\
    pkg.addCounter (vars w') = add32 (pkg.addCounter (vars w)) 1.
Proof.
  intros Hfresh.
  change (OnAdd (ObjEvent e) w) with
    (((if negb (isOldEvent (ew w) e)
       then logEvent e "Event added" ;; AddInt32 addCounterVar 1 ;; Inc addMetric
       else Inc oldEventsMetric) ;;
      deleteEvent (ObjEvent e)) w).
  rewrite Hfresh. eexists. split; [reflexivity |]. split; reflexivity.
Qed.

(** A reported add notification, at the level of the process. *)
Lemma deliver_fresh_add s e :
  halted s = None ->
  isOldEvent (ew (world s)) e = false ->
  exists s',
    step cmdHandler s (Deliver (Added (ObjEvent e))) = Some s' /\
    halted s' = None /\
    _startTime (ew (world s')) = _startTime (ew (world s)) /\
    pkg.addCounter (vars (world s')) = add32 (pkg.addCounter (vars (world s))) 1.
Proof.
  intros Hhalt Hfresh. unfold step. rewrite Hhalt.
  assert (Hw1 : exists st,
             dispatch cmdHandler (Added (ObjEvent e)) (world s) =
             OnAdd (ObjEvent e) (set_ew (set_store st (ew (world s))) (world s))).
  { eexists. reflexivity. }
  destruct Hw1 as (st & ->).
  destruct (OnAdd_fresh (set_ew (set_store st (ew (world s))) (world s)) e Hfresh)
    as (w' & -> & Hst & Hadd).
  eexists. split; [reflexivity |]. cbn [afterHandler halted world].
  split; [reflexivity |]. split; assumption.
Qed.

(** After [n] reported add notifications the add counter has moved by [n],
    wrapped to 32 bits. *)
Lemma add_counter_after_adds e (n : nat) :
  forall s,
    halted s = None ->
    isOldEvent (ew (world s)) e = false ->
    is_int32 (pkg.addCounter (vars (world s))) ->
    exists s',
      run cmdHandler s (repeat (Deliver (Added (ObjEvent e))) n) = Some s' /\
      halted s' = None /\
      pkg.addCounter (vars (world s')) =
        wrap32 (pkg.addCounter (vars (world s)) + Z.of_nat n).
Proof.
  induction n as [| n IH]; intros s Hhalt Hfresh Hint.
  - exists s. cbn [repeat run]. split; [reflexivity |]. split; [assumption |].
    rewrite Z.add_0_r. symmetry. apply wrap32_id, Hint.
  - destruct (deliver_fresh_add s e Hhalt Hfresh) as (s1 & Hstep & Hhalt1 & Hst & Hadd).
    assert (Hfresh1 : isOldEvent (ew (world s1)) e = false).
    { unfold isOldEvent in *. rewrite Hst. exact Hfresh. }
    assert (Hint1 : is_int32 (pkg.addCounter (vars (world s1)))).
    { rewrite Hadd. apply wrap32_range. }
    destruct (IH s1 Hhalt1 Hfresh1 Hint1) as (s' & Hrun & Hhalt' & Hcount).
    exists s'. cbn [repeat run]. rewrite Hstep. split; [exact Hrun |].
    split; [exact Hhalt' |].
    rewrite Hcount, Hadd. unfold add32. rewrite wrap32_add_l.
    f_equal. lia.
Qed.

(** From a fresh process, 2147483647 reported add notifications bring the
    add counter to 2147483647, where the next one wraps it around. *)
Lemma add_counter_reaches_max :
  exists s,
    run cmdHandler (boot "" 10 t_start)
      (repeat (Deliver (Added (ObjEvent (sampleEvent t_minus4)))) (Z.to_nat MaxInt32))
      = Some s /\
    pkg.addCounter (vars (world s)) = MaxInt32.
Proof.
  destruct (add_counter_after_adds (sampleEvent t_minus4) (Z.to_nat MaxInt32)
              (boot "" 10 t_start) eq_refl eq_refl
              ltac:(unfold is_int32, MinInt32, MaxInt32; cbn; lia))
    as (s & Hrun & _ & Hcount).
  exists s. split; [exact Hrun |].
  rewrite Hcount, Z2Nat.id by (unfold MaxInt32; lia).
  change (pkg.addCounter (vars (world (boot "" 10 t_start)))) with 0.
  reflexivity.
Qed.

(** * Further properties of the code *)

(** ** [setup]: the kubeconfig path *)

Lemma prefix_app p s : String.prefix p (p ++ s)%string = true.
Proof.
  induction p as [| c p IH]; simpl; [destruct s; reflexivity |].
  destruct (ascii_dec c c) as [_ | Hc]; [exact IH | contradiction].
Qed.

Lemma Index_prefix p s : gostrings.Index (p ++ s)%string p = Some 0%nat.
Proof.
  destruct (p ++ s)%string eqn:E; cbn [gostrings.Index];
    rewrite <- E, prefix_app; reflexivity.
Qed.

Lemma substring_all s : substring 0 (String.length s) s = s.
Proof.
  induction s as [| c s IH]; [reflexivity |]. cbn. rewrite IH. reflexivity.
Qed.

Lemma substring_drop p s :
  substring (String.length p) (String.length (p ++ s)%string - String.length p)
    (p ++ s)%string = s.
Proof.
  induction p as [| c p IH]; simpl.
  - rewrite Nat.sub_0_r. apply substring_all.
  - exact IH.
Qed.

Lemma substring_zero s : substring 0 0 s = EmptyString.
Proof. destruct s; reflexivity. Qed.

Lemma Replace1_prefix old new s :
  gostrings.Replace1 (old ++ s)%string old new = (new ++ s)%string.
Proof.
  unfold gostrings.Replace1.
  destruct (String.eqb_spec old new) as [-> | _]; [reflexivity |].
  rewrite Index_prefix, substring_zero. simpl.
  rewrite substring_drop. reflexivity.
Qed.

Lemma string_app_assoc (a b c : string) :
  ((a ++ b) ++ c)%string = (a ++ b ++ c)%string.
Proof.
  induction a as [| x a IH]; [reflexivity |].
  change (String x ((a ++ b) ++ c)%string = String x (a ++ b ++ c)%string).
  f_equal. exact IH.
Qed.

Lemma prefix_split p s :
  String.prefix p s = true -> exists rest, s = (p ++ rest)%string.
Proof.
  revert s. induction p as [| c p IH]; intros s H.
  - exists s. reflexivity.
  - destruct s as [| d s]; [discriminate |]. simpl in H.
    destruct (ascii_dec c d) as [-> | _]; [| discriminate].
    destruct (IH s H) as (rest & ->). exists rest. reflexivity.
Qed.

Lemma setup_kubeconfig_tilde rest HOME :
  setup_kubeconfig ("~/" ++ rest)%string HOME = (HOME ++ "/" ++ rest)%string.
Proof.
  unfold setup_kubeconfig, gostrings.HasPrefix.
  rewrite prefix_app, Replace1_prefix. apply string_app_assoc.
Qed.

Lemma setup_kubeconfig_other kubeconfig HOME :
  gostrings.HasPrefix kubeconfig "~/" = false ->
  setup_kubeconfig kubeconfig HOME = kubeconfig.
Proof. unfold setup_kubeconfig. intros ->. reflexivity. Qed.

(** X1: [setup] turns a kubeconfig path that starts with a tilde and a slash
    into the home directory, a slash and the rest of the path, the rest as it
    was (later tildes included); any other path it leaves alone. *)
Theorem setup_kubeconfig_expands (kubeconfig HOME : string) :
  (forall rest, kubeconfig = ("~/" ++ rest)%string ->
                setup_kubeconfig kubeconfig HOME = (HOME ++ "/" ++ rest)%string) /\
  ((forall rest, kubeconfig <> ("~/" ++ rest)%string) ->
   setup_kubeconfig kubeconfig HOME = kubeconfig).
Proof.
  split.
  - intros rest ->. apply setup_kubeconfig_tilde.
  - intros H. apply setup_kubeconfig_other.
    destruct (gostrings.HasPrefix kubeconfig "~/") eqn:Hp; [| reflexivity].
    destruct (prefix_split _ _ Hp) as (rest & Hrest). destruct (H rest Hrest).
Qed.

Lemma setup_kubeconfig_expands_witness :
  setup_kubeconfig "~/.kube/~/config" "/home/op" = "/home/op/.kube/~/config" /\
  setup_kubeconfig "/etc/~/config" "/home/op" = "/etc/~/config".
Proof.
  split.
  - exact (proj1 (setup_kubeconfig_expands "~/.kube/~/config" "/home/op")
             ".kube/~/config" eq_refl).
  - apply (proj2 (setup_kubeconfig_expands "/etc/~/config" "/home/op")).
    intros rest H. discriminate H.
Defined.

(** X2: expanding twice is expanding once, unless the home directory itself
    starts with a tilde and a slash. *)
Theorem setup_kubeconfig_idempotent (kubeconfig HOME : string) :
  gostrings.HasPrefix (HOME ++ "/")%string "~/" = false ->
  setup_kubeconfig (setup_kubeconfig kubeconfig HOME) HOME =
  setup_kubeconfig kubeconfig HOME.
Proof.
  intros Hhome.
  destruct (gostrings.HasPrefix kubeconfig "~/") eqn:Hp.
  - destruct (prefix_split _ _ Hp) as (rest & ->).
    rewrite setup_kubeconfig_tilde. apply setup_kubeconfig_other.
    unfold gostrings.HasPrefix in *.
    destruct (String.prefix "~/" (HOME ++ "/" ++ rest)%string) eqn:Hq; [| reflexivity].
    destruct (prefix_split _ _ Hq) as (r & Hr).
    destruct HOME as [| a [| b HOME']].
    + discriminate Hr.
    + injection Hr as -> _. discriminate Hhome.
    + injection Hr as -> -> _.
      change ((String "~" (String "/" HOME')) ++ "/")%string
        with ("~/" ++ (HOME' ++ "/"))%string in Hhome.
      rewrite prefix_app in Hhome. discriminate Hhome.
  - rewrite !(setup_kubeconfig_other _ _ Hp). reflexivity.
Qed.

Lemma setup_kubeconfig_idempotent_witness :
  setup_kubeconfig (setup_kubeconfig "~/.kube/config" "/root") "/root" = "/root/.kube/config".
Proof.
  rewrite (setup_kubeconfig_idempotent "~/.kube/config" "/root" eq_refl).
  reflexivity.
Defined.

(** ** [NewWebServer]: the listen address *)

Lemma Atoi_Itoa i : Atoi (Itoa i) = Some i.
Proof.
  unfold Atoi, Itoa. rewrite NilZero.isi.
  - cbn [option_map]. rewrite DecimalZ.of_to. reflexivity.
  - destruct i as [| p | p]; cbn; try discriminate.
    intros [= H]. exact (DecimalPos.Unsigned.to_uint_nonnil p H).
  - destruct i as [| p | p]; cbn; try discriminate.
    intros [= H]. exact (DecimalPos.Unsigned.to_uint_nonnil p H).
Qed.

(** X3: the address of the web server is a colon followed by the port in
    decimal, which reads back as the port, so two servers share an address
    only if they share the port. *)
Theorem NewWebServer_Addr_port (port port' : Z) :
  (exists digits,
     Addr (NewWebServer port) = String ":" digits /\ Atoi digits = Some port) /\
  (Addr (NewWebServer port) = Addr (NewWebServer port') -> port = port').
Proof.
  split.
  - exists (Itoa port). split; [reflexivity | apply Atoi_Itoa].
  - cbn [Addr NewWebServer]. intros H.
    change (String ":" (Itoa port) = String ":" (Itoa port')) in H.
    injection H as H. apply (f_equal Atoi) in H. rewrite !Atoi_Itoa in H.
    injection H as H. exact H.
Qed.

Lemma NewWebServer_Addr_port_witness :
  Addr (NewWebServer 8000) = ":8000" /\ Addr (NewWebServer 8000) <> Addr (NewWebServer 80).
Proof.
  split; [reflexivity |]. intros H.
  pose proof (proj2 (NewWebServer_Addr_port 8000 80) H) as E. discriminate E.
Defined.

(** ** The handlers, branch by branch *)

Lemma branches_removal_effect x message e (fresh : bool) w :
  exists w',
    ((if fresh then logEvent e message ;; AddInt32 x 1 ;; Inc (metricOf x)
      else Inc oldEventsMetric) ;;
     deleteEvent (ObjEvent e)) w = Done tt w' /\
    branch_effect x fresh true (ObjEvent e) w w'.
Proof.
  unfold branch_effect, sameConfig.
  destruct fresh; run_handler; (eexists; split; [reflexivity |]); cbn;
    (split; [reflexivity |]); (split; [intros m; destruct x, m; cbn; lia |]);
    (split; [rewrite ?length_app; cbn; lia |]); repeat split.
Qed.

Lemma branches_effect x message e (fresh : bool) w :
  exists w',
    (if fresh then logEvent e message ;; AddInt32 x 1 ;; Inc (metricOf x)
     else Inc oldEventsMetric) w = Done tt w' /\
    branch_effect x fresh false (ObjEvent e) w w'.
Proof.
  unfold branch_effect, sameConfig.
  destruct fresh; run_handler; (eexists; split; [reflexivity |]); cbn;
    (split; [reflexivity |]); (split; [intros m; destruct x, m; cbn; lia |]);
    (split; [rewrite ?length_app; cbn; lia |]); repeat split.
Qed.

(** X4: the handlers of eventwatcher.go follow the classifier: on an add, an
    update or a delete notification about an event, the transition is logged
    and counted exactly when [isOldEvent] says the event is not old, and the
    old-events counter is incremented exactly when it says old; add and
    update then take the object out of the store, delete leaves the store
    alone. *)
Theorem handlers_follow_isOldEvent (w : World) (e : Event) (oldObj : Obj) :
  let fresh := negb (isOldEvent (ew w) e) in
  (exists w', OnAdd (ObjEvent e) w = Done tt w' /\
              branch_effect addCounterVar fresh true (ObjEvent e) w w') /\
  (exists w', OnUpdate oldObj (ObjEvent e) w = Done tt w' /\
              branch_effect updateCounterVar fresh true (ObjEvent e) w w') /\
  (exists w', OnDelete (ObjEvent e) w = Done tt w' /\
              branch_effect deleteCounterVar fresh false (ObjEvent e) w w').
Proof.
  intros fresh. split; [| split].
  - exact (branches_removal_effect addCounterVar "Event added" e fresh w).
  - exact (branches_removal_effect updateCounterVar "Event updated" e fresh w).
  - exact (branches_effect deleteCounterVar "Event deleted" e fresh w).
Qed.

Lemma Sub_lt_threshold t u d :
  time.minDuration < d <= time.maxDuration ->
  ((time.Sub t u <? d) = true <-> time.instant t - time.instant u < d).
Proof.
  unfold time.Sub, time.minDuration, time.maxDuration.
  change (2 ^ 63) with 9223372036854775808.
  intros Hd. cbv zeta. rewrite Z.ltb_lt.
  repeat match goal with
         | |- context [?a <? ?b] => destruct (Z.ltb_spec a b); cbv iota
         end; lia.
Qed.

(** The inline test of part_001 in terms of instants. *)
Lemma inlineFresh_instants w e :
  time.wf (LastTimestamp e) -> time.wf (_startTime (ew w)) ->
  (inlineFresh w e = true <->
   time.instant (LastTimestamp e) > time.instant (_startTime (ew w)) \/
   time.instant (now w) - time.instant (LastTimestamp e) < 5 * time.Minute).
Proof.
  intros Hl Hs. unfold inlineFresh. rewrite orb_true_iff.
  rewrite (After_instant _ _ (UTC_wf _ Hl) Hs), UTC_instant.
  rewrite Sub_lt_threshold, UTC_instant; [reflexivity |].
  unfold time.minDuration, time.maxDuration, oldEventAgeMinutes, time.Minute,
    time.Second, time.Nanosecond. lia.
Qed.

(** X5: the handlers of part_001 decide by the clock: an event is logged and
    counted when its last timestamp is after the start time or less than five
    minutes before the current time, and counted as old otherwise, that is
    when it is at or before the start time and five minutes or more (five
    minutes exactly included) before the current time. *)
Theorem Part001_handlers_follow_clock (w : World) (e : Event) (oldObj : Obj) :
  time.wf (LastTimestamp e) -> time.wf (_startTime (ew w)) ->
  exists fresh : bool,
    (fresh = false <->
     time.instant (LastTimestamp e) <= time.instant (_startTime (ew w)) /\
     time.instant (now w) - time.instant (LastTimestamp e) >= 5 * time.Minute) /\
    (exists w', Part001.OnAdd (ObjEvent e) w = Done tt w' /\
                branch_effect addCounterVar fresh true (ObjEvent e) w w') /\
    (exists w', Part001.OnUpdate oldObj (ObjEvent e) w = Done tt w' /\
                branch_effect updateCounterVar fresh true (ObjEvent e) w w') /\
    (exists w', Part001.OnDelete (ObjEvent e) w = Done tt w' /\
                branch_effect deleteCounterVar fresh false (ObjEvent e) w w').
Proof.
  intros Hl Hs. exists (inlineFresh w e). split; [| split; [| split]].
  - pose proof (inlineFresh_instants w e Hl Hs) as H.
    destruct (inlineFresh w e).
    + split; [discriminate |]. intros [H1 H2].
      destruct (proj1 H eq_refl); lia.
    + split; [| reflexivity]. intros _.
      split.
      * destruct (Z_le_gt_dec (time.instant (LastTimestamp e))
                   (time.instant (_startTime (ew w)))) as [Hle | Hgt]; [exact Hle |].
        assert (false = true) by (apply H; left; exact Hgt). discriminate.
      * destruct (Z_lt_ge_dec (time.instant (now w) - time.instant (LastTimestamp e))
                   (5 * time.Minute)) as [Hlt | Hge]; [| exact Hge].
        assert (false = true) by (apply H; right; exact Hlt). discriminate.
  - exact (branches_removal_effect addCounterVar "Event added" e (inlineFresh w e) w).
  - exact (branches_removal_effect updateCounterVar "Event updated" e (inlineFresh w e) w).
  - exact (branches_effect deleteCounterVar "Event deleted" e (inlineFresh w e) w).
Qed.

Lemma Part001_handlers_follow_clock_witness :
  exists w',
    Part001.OnAdd (ObjEvent (sampleEvent t_minus5)) w_boot = Done tt w' /\
    metric oldEventsMetric (ew w') = 1 /\
    metric addMetric (ew w') = 0.
Proof.
  destruct (Part001_handlers_follow_clock w_boot (sampleEvent t_minus5) (ObjOther "")
              ltac:(unfold time.wf; cbn; lia) ltac:(unfold time.wf; cbn; lia))
    as (fresh & Hfresh & (w' & Hw' & Heff) & _).
  exists w'. split; [exact Hw' |].
  assert (E : fresh = false).
  { apply Hfresh. split; vm_compute; discriminate. }
  subst fresh. destruct Heff as (_ & Hm & _).
  split; rewrite Hm; reflexivity.
Defined.

(** X6: once the clock has reached the start time, everything the handlers
    of part_001 report the handlers of eventwatcher.go report as well: the
    inline test is the stricter of the two. *)
Theorem inline_test_stricter (w : World) (e : Event) :
  time.instant (now w) >= time.instant (_startTime (ew w)) ->
  inlineFresh w e = true -> isOldEvent (ew w) e = false.
Proof.
  intros Hnow. unfold inlineFresh, isOldEvent.
  destruct (time.After (time.UTC (LastTimestamp e)) (_startTime (ew w)));
    [reflexivity |].
  cbn [orb]. intros Hlt.
  apply Sub_lt_threshold in Hlt;
    [| unfold time.minDuration, time.maxDuration, oldEventAgeMinutes, time.Minute,
         time.Second, time.Nanosecond; lia].
  destruct (time.Sub (time.UTC (_startTime (ew w))) (time.UTC (LastTimestamp e))
              >? oldEventAgeMinutes * time.Minute) eqn:Hgt; [| reflexivity].
  apply Sub_gt_threshold in Hgt;
    [| unfold time.minDuration, time.maxDuration, oldEventAgeMinutes, time.Minute,
         time.Second, time.Nanosecond; lia].
  rewrite !UTC_instant in *. lia.
Qed.

Lemma inline_test_stricter_witness :
  inlineFresh w_boot (sampleEvent t_minus4) = true /\
  isOldEvent (ew w_boot) (sampleEvent t_minus4) = false.
Proof.
  split; [reflexivity |].
  apply (inline_test_stricter w_boot (sampleEvent t_minus4));
    [vm_compute; discriminate | reflexivity].
Defined.

(** ** What every step keeps *)

Lemma sameConfig_refl e : sameConfig e e.
Proof. repeat split. Qed.

Lemma sameConfig_trans e1 e2 e3 :
  sameConfig e1 e2 -> sameConfig e2 e3 -> sameConfig e1 e3.
Proof.
  unfold sameConfig. intros (A1 & A2 & A3 & A4) (B1 & B2 & B3 & B4).
  repeat split; congruence.
Qed.

Lemma totalCounted_metrics e :
  totalCounted e =
  metric addMetric e + metric updateMetric e + metric deleteMetric e
  + metric oldEventsMetric e.
Proof. reflexivity. Qed.

Lemma branch_effect_total x fresh removal obj w w' :
  branch_effect x fresh removal obj w w' ->
  totalCounted (ew w') = totalCounted (ew w) + 1.
Proof.
  intros (_ & Hm & _). rewrite !totalCounted_metrics, !Hm.
  destruct fresh, x; cbn; lia.
Qed.

Lemma branch_effect_agree x fresh removal obj w w' :
  branch_effect x fresh removal obj w w' ->
  (forall y, load y (vars w) = wrap32 (metric (metricOf y) (ew w))) ->
  forall y, load y (vars w') = wrap32 (metric (metricOf y) (ew w')).
Proof.
  intros (Hv & Hm & _) Hag y.
  pose proof (Hag addCounterVar) as Ha. pose proof (Hag updateCounterVar) as Hu.
  pose proof (Hag deleteCounterVar) as Hd.
  rewrite Hv, Hm.
  destruct fresh, x, y;
    cbn [load store_var metric metricOf Metric_eqb pkg.addCounter pkg.updateCounter
         pkg.deleteCounter] in *;
    rewrite ?Z.add_0_r; try assumption;
    unfold add32; rewrite ?Ha, ?Hu, ?Hd; apply wrap32_add_l.
Qed.

(** What the informer and the handler together make of a notification about
    an event. *)
Lemma dispatch_event h n e w :
  watcherHandler h -> notifiedObj n = ObjEvent e ->
  exists w' x fresh removal w1,
    dispatch h n w = Done tt w' /\
    branch_effect x fresh removal (ObjEvent e) w1 w' /\
    vars w1 = vars w /\ output w1 = output w /\
    (forall m, metric m (ew w1) = metric m (ew w)) /\
    sameConfig (ew w) (ew w1) /\
    (_store (ew w) = ∅ -> _store (ew w') = ∅).
Proof.
  intros Hh Hobj.
  assert (Hkey : exists k, keyFunc (ObjEvent e) = Some k) by (eexists; reflexivity).
  destruct Hkey as (k & Hk).
  destruct Hh as [-> | ->]; destruct n as [obj | oldObj obj | obj];
    cbn [notifiedObj] in Hobj; subst obj.
  - destruct (branches_removal_effect addCounterVar "Event added" e
                (negb (isOldEvent (ew w) e))
                (set_ew (set_store (<[k := e]> (_store (ew w))) (ew w)) w))
      as (w' & Hw' & Heff).
    exists w', addCounterVar, (negb (isOldEvent (ew w) e)), true,
      (set_ew (set_store (<[k := e]> (_store (ew w))) (ew w)) w).
    injection Hk as <-.
    split; [exact Hw' |]. split; [exact Heff |].
    split; [reflexivity |]. split; [reflexivity |].
    split; [intros m; apply metric_set_store |]. split; [repeat split |].
    intros Hempty. destruct Heff as (_ & _ & _ & Hst & _). rewrite Hst.
    cbn. rewrite Hempty, delete_insert_eq. apply delete_empty.
  - destruct (branches_removal_effect updateCounterVar "Event updated" e
                (negb (isOldEvent (ew w) e))
                (set_ew (set_store (<[k := e]> (_store (ew w))) (ew w)) w))
      as (w' & Hw' & Heff).
    exists w', updateCounterVar, (negb (isOldEvent (ew w) e)), true,
      (set_ew (set_store (<[k := e]> (_store (ew w))) (ew w)) w).
    injection Hk as <-.
    split; [exact Hw' |]. split; [exact Heff |].
    split; [reflexivity |]. split; [reflexivity |].
    split; [intros m; apply metric_set_store |]. split; [repeat split |].
    intros Hempty. destruct Heff as (_ & _ & _ & Hst & _). rewrite Hst.
    cbn. rewrite Hempty, delete_insert_eq. apply delete_empty.
  - destruct (branches_effect deleteCounterVar "Event deleted" e
                (negb (isOldEvent (ew w) e))
                (set_ew (set_store (delete k (_store (ew w))) (ew w)) w))
      as (w' & Hw' & Heff).
    exists w', deleteCounterVar, (negb (isOldEvent (ew w) e)), false,
      (set_ew (set_store (delete k (_store (ew w))) (ew w)) w).
    injection Hk as <-.
    split; [exact Hw' |]. split; [exact Heff |].
    split; [reflexivity |]. split; [reflexivity |].
    split; [intros m; apply metric_set_store |]. split; [repeat split |].
    intros Hempty. destruct Heff as (_ & _ & _ & Hst & _). rewrite Hst.
    cbn. rewrite Hempty. apply delete_empty.
  - pose (w1 := set_ew (set_store (<[k := e]> (_store (ew w))) (ew w)) w).
    destruct (branches_removal_effect addCounterVar "Event added" e
                (inlineFresh w1 e) w1) as (w' & Hw' & Heff).
    exists w', addCounterVar, (inlineFresh w1 e), true, w1.
    injection Hk as <-.
    split; [exact Hw' |]. split; [exact Heff |].
    split; [reflexivity |]. split; [reflexivity |].
    split; [intros m; apply metric_set_store |]. split; [repeat split |].
    intros Hempty. destruct Heff as (_ & _ & _ & Hst & _). rewrite Hst.
    cbn. rewrite Hempty, delete_insert_eq. apply delete_empty.
  - pose (w1 := set_ew (set_store (<[k := e]> (_store (ew w))) (ew w)) w).
    destruct (branches_removal_effect updateCounterVar "Event updated" e
                (inlineFresh w1 e) w1) as (w' & Hw' & Heff).
    exists w', updateCounterVar, (inlineFresh w1 e), true, w1.
    injection Hk as <-.
    split; [exact Hw' |]. split; [exact Heff |].
    split; [reflexivity |]. split; [reflexivity |].
    split; [intros m; apply metric_set_store |]. split; [repeat split |].
    intros Hempty. destruct Heff as (_ & _ & _ & Hst & _). rewrite Hst.
    cbn. rewrite Hempty, delete_insert_eq. apply delete_empty.
  - pose (w1 := set_ew (set_store (delete k (_store (ew w))) (ew w)) w).
    destruct (branches_effect deleteCounterVar "Event deleted" e
                (inlineFresh w1 e) w1) as (w' & Hw' & Heff).
    exists w', deleteCounterVar, (inlineFresh w1 e), false, w1.
    injection Hk as <-.
    split; [exact Hw' |]. split; [exact Heff |].
    split; [reflexivity |]. split; [reflexivity |].
    split; [intros m; apply metric_set_store |]. split; [repeat split |].
    intros Hempty. destruct Heff as (_ & _ & _ & Hst & _). rewrite Hst.
    cbn. rewrite Hempty. apply delete_empty.
Qed.

Lemma dispatch_other h n ty w :
  watcherHandler h -> notifiedObj n = ObjOther ty ->
  exists reason, dispatch h n w = Panic reason w.
Proof.
  intros Hh Hobj.
  destruct Hh as [-> | ->]; destruct n as [obj | oldObj obj | obj];
    cbn [notifiedObj] in Hobj; subst obj; eexists; reflexivity.
Qed.

(** What one step of the process keeps and counts. *)
Lemma step_keeps h s a s' :
  watcherHandler h -> step h s a = Some s' ->
  sameConfig (ew (world s)) (ew (world s')) /\
  (_store (ew (world s)) = ∅ -> _store (ew (world s')) = ∅) /\
  totalCounted (ew (world s')) =
    totalCounted (ew (world s)) + Z.of_nat (notifiedEvents [a]) /\
  ((forall x, load x (vars (world s)) = wrap32 (metric (metricOf x) (ew (world s)))) ->
   forall x, load x (vars (world s')) = wrap32 (metric (metricOf x) (ew (world s')))).
Proof.
  intros Hh. unfold step. destruct (halted s); [discriminate |].
  assert (Hsame : forall w' : World,
             vars w' = vars (world s) -> ew w' = ew (world s) ->
             sameConfig (ew (world s)) (ew w') /\
             (_store (ew (world s)) = ∅ -> _store (ew w') = ∅) /\
             totalCounted (ew w') = totalCounted (ew (world s)) + 0 /\
             ((forall x, load x (vars (world s)) =
                         wrap32 (metric (metricOf x) (ew (world s)))) ->
              forall x, load x (vars w') = wrap32 (metric (metricOf x) (ew w')))).
  { intros w' -> ->. split; [apply sameConfig_refl |]. split; [exact id |].
    split; [lia | exact id]. }
  destruct a as [n | t | | | | c].
  - intros [= <-]. rewrite final_afterHandler. cbn [notifiedEvents].
    destruct (notifiedObj n) as [e | ty] eqn:Hobj; cbn [isEventObj].
    + destruct (dispatch_event h n e (world s) Hh Hobj)
        as (w' & x & fresh & removal & w1 & -> & Heff & Hv1 & _ & Hm1 & Hc1 & Hst).
      cbn [final]. split; [| split; [exact Hst | split]].
      * apply (sameConfig_trans _ _ _ Hc1). apply Heff.
      * rewrite (branch_effect_total _ _ _ _ _ _ Heff).
        rewrite !totalCounted_metrics, !Hm1. cbn. lia.
      * intros Hag. apply (branch_effect_agree _ _ _ _ _ _ Heff).
        intros y. rewrite Hv1, Hm1. apply Hag.
    + destruct (dispatch_other h n ty (world s) Hh Hobj) as (reason & ->).
      cbn [final]. apply Hsame; reflexivity.
  - intros [= <-]. apply Hsame; reflexivity.
  - destruct (reporter s); try discriminate. intros [= <-].
    rewrite final_afterReporter. apply Hsame; apply reporter_keeps_counters.
  - destruct (ticker (world s)); try discriminate. intros [= <-].
    apply Hsame; reflexivity.
  - destruct (stopChan (world s)); try discriminate. intros [= <-].
    apply Hsame; reflexivity.
  - destruct (reporter s) as [| pa pu pd |]; try discriminate.
    destruct (Part001.ready c (world s)); try discriminate. intros [= <-].
    rewrite final_afterReporter. apply Hsame; apply reporter_keeps_counters.
Qed.

Lemma notifiedEvents_cons a acts :
  notifiedEvents (a :: acts) = (notifiedEvents [a] + notifiedEvents acts)%nat.
Proof.
  destruct a as [n | | | | |]; cbn [notifiedEvents]; try reflexivity.
  destruct (isEventObj (notifiedObj n)); reflexivity.
Qed.

Lemma run_keeps h acts :
  watcherHandler h ->
  forall s s',
    run h s acts = Some s' ->
    sameConfig (ew (world s)) (ew (world s')) /\
    (_store (ew (world s)) = ∅ -> _store (ew (world s')) = ∅) /\
    totalCounted (ew (world s')) =
      totalCounted (ew (world s)) + Z.of_nat (notifiedEvents acts) /\
    ((forall x, load x (vars (world s)) = wrap32 (metric (metricOf x) (ew (world s)))) ->
     forall x, load x (vars (world s')) = wrap32 (metric (metricOf x) (ew (world s')))).
Proof.
  intros Hh. induction acts as [| a acts IH]; intros s s'; cbn [run].
  - intros [= <-]. split; [apply sameConfig_refl |]. split; [exact id |].
    split; [cbn; lia | exact id].
  - destruct (step h s a) as [s1 |] eqn:Hstep; [| discriminate]. intros Hrun.
    destruct (step_keeps h s a s1 Hh Hstep) as (A1 & A2 & A3 & A4).
    destruct (IH s1 s' Hrun) as (B1 & B2 & B3 & B4).
    split; [exact (sameConfig_trans _ _ _ A1 B1) |].
    split; [intros H; exact (B2 (A2 H)) |].
    split; [rewrite B3, A3, (notifiedEvents_cons a acts); lia |].
    intros H. exact (B4 (A4 H)).
Qed.

(** X7: the start time and the other settings of the watcher are fixed for
    the life of the process, so the classifier gives the same answer for an
    event at any moment of any run. *)
Theorem start_time_is_fixed h s acts s' (e : Event) :
  watcherHandler h -> run h s acts = Some s' ->
  sameConfig (ew (world s)) (ew (world s')) /\
  isOldEvent (ew (world s')) e = isOldEvent (ew (world s)) e.
Proof.
  intros Hh Hrun. destruct (run_keeps h acts Hh s s' Hrun) as (Hc & _).
  split; [exact Hc |]. destruct Hc as (_ & _ & _ & Hst).
  unfold isOldEvent. rewrite Hst. reflexivity.
Qed.

(** X8: the store is drained as fast as it fills: from an empty store, after
    any run, whatever was notified, the store is empty again. *)
Theorem store_stays_drained h s acts s' :
  watcherHandler h -> _store (ew (world s)) = ∅ ->
  run h s acts = Some s' ->
  _store (ew (world s')) = ∅.
Proof.
  intros Hh Hempty Hrun. exact (proj1 (proj2 (run_keeps h acts Hh s s' Hrun)) Hempty).
Qed.

(** X9: every notification about an event is counted once and only once: in
    any run the four metrics together have grown by the number of such
    notifications. *)
Theorem every_event_counted_once h s acts s' :
  watcherHandler h -> run h s acts = Some s' ->
  totalCounted (ew (world s')) =
  totalCounted (ew (world s)) + Z.of_nat (notifiedEvents acts).
Proof.
  intros Hh Hrun. exact (proj1 (proj2 (proj2 (run_keeps h acts Hh s s' Hrun)))).
Qed.

(** X10: the [int32] counters that the stats reporter prints and the metrics
    that the web server exposes tell the same story between notifications:
    with every handler call run as a whole, in every state the process
    reaches each counter is its metric wrapped to 32 bits.  (Inside a handler
    call the counter is incremented one statement before its metric.) *)
Theorem counters_agree_with_metrics h ns statsSeconds clock acts s (x : Var) :
  watcherHandler h ->
  run h (boot ns statsSeconds clock) acts = Some s ->
  load x (vars (world s)) = wrap32 (metric (metricOf x) (ew (world s))).
Proof.
  intros Hh Hrun.
  apply (proj2 (proj2 (proj2 (run_keeps h acts Hh _ s Hrun)))).
  intros y. destruct y; reflexivity.
Qed.

Lemma start_time_is_fixed_witness :
  exists s,
    run part001Handler (boot "" 10 t_start) acts_two_ticks = Some s /\
    _startTime (ew (world s)) = t_start /\
    isOldEvent (ew (world s)) (sampleEvent t_minus6) = true.
Proof.
  destruct (run part001Handler (boot "" 10 t_start) acts_two_ticks) as [s |] eqn:Hrun;
    [| vm_compute in Hrun; discriminate Hrun].
  exists s. split; [reflexivity |].
  destruct (start_time_is_fixed part001Handler _ acts_two_ticks s (sampleEvent t_minus6)
              (or_intror eq_refl) Hrun) as ((_ & _ & _ & Hst) & Hold).
  split; [rewrite Hst; reflexivity | rewrite Hold; reflexivity].
Defined.

Lemma store_stays_drained_witness :
  exists s,
    run cmdHandler (boot "" 10 t_start) acts_two_ticks = Some s /\
    _store (ew (world s)) = ∅.
Proof.
  destruct (run cmdHandler (boot "" 10 t_start) acts_two_ticks) as [s |] eqn:Hrun;
    [| vm_compute in Hrun; discriminate Hrun].
  exists s. split; [reflexivity |].
  exact (store_stays_drained cmdHandler (boot "" 10 t_start) acts_two_ticks s
           (or_introl eq_refl) eq_refl Hrun).
Defined.

Lemma every_event_counted_once_witness :
  exists s,
    run part001Handler (boot "" 10 t_start) acts_two_ticks = Some s /\
    totalCounted (ew (world s)) = 4.
Proof.
  destruct (run part001Handler (boot "" 10 t_start) acts_two_ticks) as [s |] eqn:Hrun;
    [| vm_compute in Hrun; discriminate Hrun].
  exists s. split; [reflexivity |].
  rewrite (every_event_counted_once part001Handler _ acts_two_ticks s
             (or_intror eq_refl) Hrun).
  reflexivity.
Defined.

Lemma counters_agree_with_metrics_witness :
  exists s,
    run cmdHandler (boot "" 10 t_start) acts_two_ticks = Some s /\
    pkg.addCounter (vars (world s)) = wrap32 (addCounter (ew (world s))).
Proof.
  destruct (run cmdHandler (boot "" 10 t_start) acts_two_ticks) as [s |] eqn:Hrun;
    [| vm_compute in Hrun; discriminate Hrun].
  exists s. split; [reflexivity |].
  exact (counters_agree_with_metrics cmdHandler "" 10 t_start acts_two_ticks s
           addCounterVar (or_introl eq_refl) Hrun).
Defined.

(** ** Starting the stats reporter *)

Lemma wrap64_id z : - 2 ^ 63 <= z < 2 ^ 63 -> wrap64 z = z.
Proof.
  unfold wrap64. change (2 ^ 64) with (2 * 2 ^ 63). intros H.
  rewrite Z.mod_small; lia.
Qed.

(** X11: for every stats interval from one second up to 9223372036 seconds
    the reporter makes a ticker, logs that stats are starting and enters its
    loop with its three previous values at zero, without touching a counter. *)
Theorem stats_start h s :
  halted s = None -> reporter s = Part001.Idle ->
  0 < statsIntervalSeconds (ew (world s)) <= maxStatsSeconds ->
  exists s1,
    step h s Spawn = Some s1 /\
    halted s1 = None /\
    reporter s1 = Part001.Selecting 0 0 0 /\
    ticker (world s1) = Ticking false /\
    output (world s1) = output (world s) ++ [infoRecord (world s) "Starting stats" []] /\
    vars (world s1) = vars (world s) /\ ew (world s1) = ew (world s).
Proof.
  intros Hhalt Hrep Hint. unfold maxStatsSeconds in Hint.
  assert (Hpos : 0 < wrap64 (statsIntervalSeconds (ew (world s)) * time.Second)).
  { unfold time.Second, time.Nanosecond. rewrite wrap64_id;
      change (2 ^ 63) with 9223372036854775808; lia. }
  eexists. split.
  { unfold step. rewrite Hhalt, Hrep, (enter_running _ (proj1 Hint) Hpos). reflexivity. }
  cbn. repeat split.
Qed.

Lemma stats_start_witness :
  exists s1,
    step cmdHandler (boot "" maxStatsSeconds t_start) Spawn = Some s1 /\
    ticker (world s1) = Ticking false.
Proof.
  destruct (stats_start cmdHandler (boot "" maxStatsSeconds t_start) eq_refl eq_refl
              ltac:(unfold maxStatsSeconds; cbn; lia))
    as (s1 & Hstep & _ & _ & Ht & _).
  exists s1. split; assumption.
Defined.

(** X12: a stats interval so large that its duration in nanoseconds
    overflows [int64] into a non-positive number (9223372037 seconds is the
    first) makes [time.NewTicker] panic: the process goes down before the
    reporter has logged anything, and nothing runs after that. *)
Theorem stats_interval_overflow h s :
  halted s = None -> reporter s = Part001.Idle ->
  maxStatsSeconds < statsIntervalSeconds (ew (world s)) <= 2 * maxStatsSeconds + 1 ->
  exists s1,
    step h s Spawn = Some s1 /\
    halted s1 = Some "non-positive interval for NewTicker" /\
    world s1 = world s /\
    forall a, step h s1 a = None.
Proof.
  intros Hhalt Hrep Hint. unfold maxStatsSeconds in Hint.
  assert (Hneg : wrap64 (statsIntervalSeconds (ew (world s)) * time.Second) <= 0).
  { unfold wrap64, time.Second, time.Nanosecond.
    change (2 ^ 63) with 9223372036854775808.
    change (2 ^ 64) with 18446744073709551616.
    replace (statsIntervalSeconds (ew (world s)) * (1000000000 * 1)
             + 9223372036854775808)
      with ((statsIntervalSeconds (ew (world s)) * 1000000000 - 9223372036854775808)
            + 1 * 18446744073709551616) by lia.
    rewrite Z.mod_add by lia. rewrite Z.mod_small; lia. }
  eexists. split.
  { unfold step. rewrite Hhalt, Hrep.
    rewrite (enter_panics (world s) ltac:(lia) Hneg). reflexivity. }
  cbn. repeat split.
Qed.

Lemma stats_interval_overflow_witness :
  exists s1,
    step cmdHandler (boot "" 9223372037 t_start) Spawn = Some s1 /\
    halted s1 = Some "non-positive interval for NewTicker" /\
    step cmdHandler s1 Fire = None.
Proof.
  destruct (stats_interval_overflow cmdHandler (boot "" 9223372037 t_start)
              eq_refl eq_refl ltac:(unfold maxStatsSeconds; cbn; lia))
    as (s1 & Hstep & Hhalt & _ & Hnone).
  exists s1. split; [exact Hstep |]. split; [exact Hhalt | apply Hnone].
Defined.

(** ** The shape of the reporter's log *)

Lemma reporterMsgs_app l1 l2 :
  reporterMsgs (l1 ++ l2) = reporterMsgs l1 ++ reporterMsgs l2.
Proof. unfold reporterMsgs. rewrite List.filter_app. apply map_app. Qed.

Lemma handler_reporterMsgs l :
  Forall (fun r => In (msg r) handlerMsgs) l -> reporterMsgs l = [].
Proof.
  induction 1 as [| r l Hr _ IH]; [reflexivity |].
  unfold reporterMsgs in *. cbn [List.filter].
  assert (E : isReporter r = false).
  { unfold isReporter, isSnapshot. cbn in Hr.
    destruct Hr as [H | [H | [H | [H | []]]]]; rewrite <- H; reflexivity. }
  rewrite E. exact IH.
Qed.

Lemma snapshotRun_snoc k : snapshotRun k ++ snapshotMsgs = snapshotRun (S k).
Proof.
  induction k as [| k IH]; [reflexivity |].
  change (snapshotRun (S k)) with (snapshotMsgs ++ snapshotRun k).
  rewrite <- app_assoc, IH. reflexivity.
Qed.

Lemma select_stop_output pa pu pd w :
  exists w',
    Part001.runStatsPrint_select Part001.stopChanCase pa pu pd w =
      Done Part001.Returned w' /\
    output w' = output w ++ [infoRecord w "Stopping stats" []] /\
    pendingTick (ticker w') = pendingTick (ticker w).
Proof.
  rewrite select_stop. eexists. split; [reflexivity |].
  cbn. destruct (ticker w) as [| p | p] eqn:Ht; cbn; rewrite ?Ht; split; reflexivity.
Qed.

Lemma shape_inv_quiet s w' r hl :
  shape_inv s -> reporterMsgs (output w') = reporterMsgs (output (world s)) ->
  r = reporter s ->
  shape_inv {| world := w'; reporter := r; halted := hl |}.
Proof. unfold shape_inv. cbn [world reporter]. intros H -> ->. exact H. Qed.

Lemma shape_inv_step h s a s' :
  watcherHandler h -> shape_inv s -> step h s a = Some s' -> shape_inv s'.
Proof.
  intros Hh Hinv. unfold step. destruct (halted s); [discriminate |].
  destruct a as [n | t | | | | c].
  - intros [= <-].
    destruct (dispatch_frame h n (world s) Hh) as ((l & Hl & Hmsgs) & _).
    unfold afterHandler.
    destruct (dispatch h n (world s)) as [[] w' | reason w']; cbn [final] in Hl;
      apply (shape_inv_quiet s); auto;
      rewrite Hl, reporterMsgs_app, (handler_reporterMsgs l Hmsgs); apply app_nil_r.
  - intros [= <-]. apply (shape_inv_quiet s); auto.
  - destruct (reporter s) eqn:Hrep; try discriminate. intros [= <-].
    unfold shape_inv in Hinv. rewrite Hrep in Hinv. cbv zeta in Hinv.
    destruct (Z.leb_spec (statsIntervalSeconds (ew (world s))) 0) as [H | H].
    + rewrite (enter_disabled _ H). unfold shape_inv. cbn [afterReporter world reporter].
      cbn [output write_log]. rewrite reporterMsgs_app, Hinv. right. left. reflexivity.
    + destruct (Z.leb_spec (wrap64 (statsIntervalSeconds (ew (world s)) * time.Second)) 0)
        as [H' | H'].
      * rewrite (enter_panics _ H H'). unfold shape_inv. cbn [afterReporter world reporter].
        left. exact Hinv.
      * rewrite (enter_running _ H H'). unfold shape_inv. cbn [afterReporter world reporter].
        cbn [output write_log set_ticker]. rewrite reporterMsgs_app, Hinv.
        exists 0%nat. reflexivity.
  - destruct (ticker (world s)); try discriminate. intros [= <-].
    apply (shape_inv_quiet s); auto.
  - destruct (stopChan (world s)); try discriminate. intros [= <-].
    apply (shape_inv_quiet s); auto.
  - destruct (reporter s) as [| pa pu pd |] eqn:Hrep; try discriminate.
    destruct (Part001.ready c (world s)); try discriminate. intros [= <-].
    unfold shape_inv in Hinv. rewrite Hrep in Hinv. cbv zeta in Hinv.
    destruct Hinv as (k & Hk). destruct c.
    + destruct (select_stop_output pa pu pd (world s)) as (w' & -> & Ho & _).
      unfold shape_inv. cbn [afterReporter world reporter].
      rewrite Ho, reporterMsgs_app, Hk. right. right. exists k. reflexivity.
    + destruct (select_tick pa pu pd (world s)) as (w' & -> & Ho & _).
      unfold shape_inv. cbn [afterReporter world reporter].
      rewrite Ho, reporterMsgs_app, Hk. exists (S k).
      change (reporterMsgs [_; _; _]) with snapshotMsgs.
      rewrite <- snapshotRun_snoc. reflexivity.
Qed.

Lemma shape_inv_run h acts :
  watcherHandler h ->
  forall s s', shape_inv s -> run h s acts = Some s' -> shape_inv s'.
Proof.
  intros Hh. induction acts as [| a acts IH]; intros s s' Hinv; cbn [run].
  - intros [= <-]. exact Hinv.
  - destruct (step h s a) as [s1 |] eqn:Hstep; [| discriminate].
    apply IH. exact (shape_inv_step h s a s1 Hh Hinv Hstep).
Qed.

(** X13: whatever the process does, the records of the stats reporter in the
    log are nothing, or the one disabled record, or the starting record
    followed by whole snapshots (store size, cumulative counters, deltas, in
    that order) and then at most one stopping record, after which there is
    nothing more. *)
Theorem reporter_log_shape h ns statsSeconds clock acts s :
  watcherHandler h ->
  run h (boot ns statsSeconds clock) acts = Some s ->
  let msgs := reporterMsgs (output (world s)) in
  msgs = [] \/ msgs = ["Disabling stats"] \/
  exists k, msgs = "Starting stats" :: snapshotRun k \/
            msgs = "Starting stats" :: snapshotRun k ++ ["Stopping stats"].
Proof.
  intros Hh Hrun msgs.
  assert (Hinv : shape_inv s).
  { apply (shape_inv_run h acts Hh (boot ns statsSeconds clock) s);
      [reflexivity | exact Hrun]. }
  unfold shape_inv in Hinv. fold msgs in Hinv. cbv zeta in Hinv.
  destruct (reporter s).
  - left. exact Hinv.
  - destruct Hinv as (k & Hk). right. right. exists k. left. exact Hk.
  - destruct Hinv as [H | [H | (k & Hk)]]; [left; exact H | right; left; exact H |].
    right. right. exists k. right. exact Hk.
Qed.

Lemma reporter_log_shape_witness :
  exists s,
    run part001Handler (boot "" 10 t_start) acts_two_ticks = Some s /\
    (reporterMsgs (output (world s)) = [] \/
     reporterMsgs (output (world s)) = ["Disabling stats"] \/
     exists k,
       reporterMsgs (output (world s)) = "Starting stats" :: snapshotRun k \/
       reporterMsgs (output (world s)) =
         "Starting stats" :: snapshotRun k ++ ["Stopping stats"]).
Proof.
  destruct (run part001Handler (boot "" 10 t_start) acts_two_ticks) as [s |] eqn:Hrun;
    [| vm_compute in Hrun; discriminate Hrun].
  exists s. split; [reflexivity |].
  exact (reporter_log_shape part001Handler "" 10 t_start acts_two_ticks s
           (or_intror eq_refl) Hrun).
Defined.

(** ** Snapshots and ticks *)

Lemma fires_cons a acts : fires (a :: acts) = (fires [a] + fires acts)%nat.
Proof. destruct a; reflexivity. Qed.

Lemma tick_budget_step h s a s' :
  watcherHandler h -> step h s a = Some s' ->
  (length (cumulatives (output (world s'))) + pendingTick (ticker (world s'))
   <= length (cumulatives (output (world s))) + pendingTick (ticker (world s))
      + fires [a])%nat.
Proof.
  intros Hh. unfold step. destruct (halted s); [discriminate |].
  destruct a as [n | t | | | | c].
  - intros [= <-]. rewrite final_afterHandler.
    destruct (dispatch_frame h n (world s) Hh) as ((l & -> & Hmsgs) & -> & _).
    destruct (handler_records l Hmsgs) as (_ & Hc & _).
    rewrite cumulatives_app, Hc, app_nil_r. rewrite ?length_app; unfold cumulatives; cbn; lia.
  - intros [= <-]. rewrite ?length_app; unfold cumulatives; cbn; lia.
  - destruct (reporter s); try discriminate. intros [= <-].
    destruct (Z.leb_spec (statsIntervalSeconds (ew (world s))) 0) as [H | H].
    + rewrite (enter_disabled _ H). cbn [afterReporter world output write_log ticker].
      rewrite cumulatives_app. rewrite ?length_app; unfold cumulatives; cbn; lia.
    + destruct (Z.leb_spec (wrap64 (statsIntervalSeconds (ew (world s)) * time.Second)) 0)
        as [H' | H'].
      * rewrite (enter_panics _ H H'). rewrite ?length_app; unfold cumulatives; cbn; lia.
      * rewrite (enter_running _ H H').
        cbn [afterReporter world output write_log ticker set_ticker].
        rewrite cumulatives_app. rewrite ?length_app; unfold cumulatives; cbn; lia.
  - destruct (ticker (world s)) as [| p | p] eqn:Ht; try discriminate. intros [= <-].
    unfold cumulatives; cbn; destruct p; lia.
  - destruct (stopChan (world s)); try discriminate. intros [= <-]. rewrite ?length_app; unfold cumulatives; cbn; lia.
  - destruct (reporter s) as [| pa pu pd |]; try discriminate.
    destruct (Part001.ready c (world s)) eqn:Hready; try discriminate. intros [= <-].
    destruct c.
    + destruct (select_stop_output pa pu pd (world s)) as (w' & -> & Ho & Ht).
      cbn [afterReporter world]. rewrite Ho, Ht, cumulatives_app. rewrite ?length_app; unfold cumulatives; cbn; lia.
    + destruct (select_tick pa pu pd (world s)) as (w' & -> & Ho & _ & _ & _ & Ht).
      cbn [afterReporter world]. rewrite Ho, Ht, cumulatives_app.
      change (cumulatives [_; _; _]) with
        [(pkg.addCounter (vars (world s)), pkg.updateCounter (vars (world s)),
          pkg.deleteCounter (vars (world s)))].
      rewrite length_app. cbn -[cumulatives] in Hready |- *.
      destruct (ticker (world s)) as [| [|] | [|]]; try discriminate; unfold cumulatives; cbn; lia.
Qed.

Lemma tick_budget_run h acts :
  watcherHandler h ->
  forall s s',
    run h s acts = Some s' ->
    (length (cumulatives (output (world s'))) + pendingTick (ticker (world s'))
     <= length (cumulatives (output (world s))) + pendingTick (ticker (world s))
        + fires acts)%nat.
Proof.
  intros Hh. induction acts as [| a acts IH]; intros s s'; cbn [run].
  - intros [= <-]. cbn. lia.
  - destruct (step h s a) as [s1 |] eqn:Hstep; [| discriminate]. intros Hrun.
    pose proof (tick_budget_step h s a s1 Hh Hstep).
    pose proof (IH s1 s' Hrun). rewrite (fires_cons a acts). lia.
Qed.

(** X14: the reporter takes a snapshot only for a tick: in any run there are
    at most as many snapshots in the log as ticks the ticker has sent, however
    many notifications arrive and however long the stop signal has been up. *)
Theorem snapshots_need_ticks h ns statsSeconds clock acts s :
  watcherHandler h ->
  run h (boot ns statsSeconds clock) acts = Some s ->
  (length (cumulatives (output (world s))) <= fires acts)%nat /\
  (length (deltas (output (world s))) <= fires acts)%nat.
Proof.
  intros Hh Hrun.
  pose proof (tick_budget_run h acts Hh (boot ns statsSeconds clock) s Hrun) as H.
  cbn in H.
  destruct (stats_inv_run h acts Hh _ _ (stats_inv_boot ns statsSeconds clock) Hrun)
    as (Hd & _).
  split; [lia |]. rewrite Hd.
  assert (Hlen : forall p cs, length (diffs sub32 p cs) = length cs).
  { intros p cs. revert p. induction cs as [| c cs IH]; intros p; cbn; [| rewrite IH];
      reflexivity. }
  rewrite Hlen. lia.
Qed.

Lemma snapshots_need_ticks_witness :
  exists s,
    run part001Handler (boot "" 10 t_start) acts_two_ticks = Some s /\
    (length (cumulatives (output (world s))) <= 2)%nat.
Proof.
  destruct (run part001Handler (boot "" 10 t_start) acts_two_ticks) as [s |] eqn:Hrun;
    [| vm_compute in Hrun; discriminate Hrun].
  exists s. split; [reflexivity |].
  exact (proj1 (snapshots_need_ticks part001Handler "" 10 t_start acts_two_ticks s
                  (or_intror eq_refl) Hrun)).
Defined.

(** ** The age in a log record *)

Lemma Round_nearest d m :
  0 < m <= 2 ^ 62 -> - 2 ^ 62 <= d <= 2 ^ 62 ->
  (exists k, time.Round d m = k * m) /\ 2 * Z.abs (time.Round d m - d) <= m.
Proof.
  change (2 ^ 62) with 4611686018427387904. intros Hm Hd.
  assert (Hw : forall z, - 9223372036854775808 <= z < 9223372036854775808 ->
                         wrap64 z = z).
  { intros z Hz. apply wrap64_id. change (2 ^ 63) with 9223372036854775808. exact Hz. }
  pose proof (Z.quot_rem' d m) as Hqr.
  unfold time.Round, time.lessThanHalf, time.minDuration, time.maxDuration.
  destruct (Z.leb_spec m 0) as [Hle | _]; [lia |]. cbv zeta.
  destruct (Z.ltb_spec d 0) as [Hneg | Hpos].
  - pose proof (Z.rem_bound_pos_neg d m ltac:(lia) ltac:(lia)) as Hr.
    destruct (Z.ltb_spec (- Z.rem d m + - Z.rem d m) m) as [Hhalf | Hhalf].
    + rewrite Hw by lia. split; [exists (Z.quot d m); lia | lia].
    + rewrite Hw by lia.
      destruct (Z.ltb_spec (d - m + - Z.rem d m) d) as [_ | Hge]; [| lia].
      split; [exists (Z.quot d m - 1); lia | lia].
  - pose proof (Z.rem_bound_pos d m ltac:(lia) ltac:(lia)) as Hr.
    destruct (Z.ltb_spec (Z.rem d m + Z.rem d m) m) as [Hhalf | Hhalf].
    + rewrite Hw by lia. split; [exists (Z.quot d m); lia | lia].
    + rewrite Hw by lia.
      destruct (Z.gtb_spec (d + m - Z.rem d m) d) as [_ | Hle]; [| lia].
      split; [exists (Z.quot d m + 1); lia | lia].
Qed.

(** X15: [logEvent] writes one info record with the message it is given and
    the event's namespace, name, version, message and count; its age field is
    a whole number of seconds, at most half a second away from the time since
    the event's last timestamp; nothing but the log changes. *)
Theorem logEvent_record (e : Event) (message : string) (w : World) :
  - 2 ^ 62 <= time.instant (now w) - time.instant (LastTimestamp e) <= 2 ^ 62 ->
  exists r age,
    logEvent e message w = Done tt (write_log r w) /\
    level r = InfoLevel /\ msg r = message /\ component r = logger (ew w) /\
    fields r =
      [ Str "namespace" (Namespace e); Str "name" (Name e);
        Str "version" (ResourceVersion e); Str "eventMsg" (Message e);
        TimeRFC3339 "lastTimestamp" (time.UTC (LastTimestamp e));
        Dur "age" age; Int32 "count" (Count e) ] /\
    (exists seconds, age = seconds * time.Second) /\
    2 * Z.abs (age - (time.instant (now w) - time.instant (LastTimestamp e)))
      <= time.Second.
Proof.
  intros Hd.
  assert (Hsub : time.Sub (now w) (LastTimestamp e) =
                 time.instant (now w) - time.instant (LastTimestamp e)).
  { unfold time.Sub, time.minDuration, time.maxDuration. cbv zeta.
    change (2 ^ 62) with 4611686018427387904 in Hd.
    change (2 ^ 63) with 9223372036854775808.
    repeat match goal with
           | |- context [?a <? ?b] => destruct (Z.ltb_spec a b); cbv iota
           end; lia. }
  destruct (Round_nearest (time.Sub (now w) (LastTimestamp e)) time.Second)
    as [Hk Hnear].
  { unfold time.Second, time.Nanosecond.
    change (2 ^ 62) with 4611686018427387904. lia. }
  { rewrite Hsub. exact Hd. }
  eexists. exists (time.Round (time.Sub (now w) (LastTimestamp e)) time.Second).
  split; [reflexivity |]. cbn [level msg component fields].
  repeat (split; [reflexivity |]).
  split; [exact Hk |]. rewrite <- Hsub. exact Hnear.
Qed.

Lemma logEvent_record_witness :
  exists r,
    logEvent (sampleEvent t_minus4) "Event added" w_boot = Done tt (write_log r w_boot) /\
    In (Dur "age" (240 * time.Second)) (fields r).
Proof.
  destruct (logEvent_record (sampleEvent t_minus4) "Event added" w_boot
              ltac:(vm_compute; split; discriminate))
    as (r & age & Hlog & _ & _ & _ & Hf & _ & _).
  exists r. split; [exact Hlog |].
  vm_compute in Hlog. injection Hlog as <-. vm_compute. tauto.
Defined.

(** ** A burst of add notifications *)

Lemma deliver_added s e :
  halted s = None ->
  exists s',
    step cmdHandler s (Deliver (Added (ObjEvent e))) = Some s' /\
    halted s' = None /\ reporter s' = reporter s /\
    branch_effect addCounterVar (negb (isOldEvent (ew (world s)) e)) true (ObjEvent e)
      (world s) (world s').
Proof.
  intros Hhalt. unfold step. rewrite Hhalt.
  pose (k := if String.eqb (Namespace e) "" then Name e
             else (Namespace e ++ "/" ++ Name e)%string).
  pose (w1 := set_ew (set_store (<[k := e]> (_store (ew (world s)))) (ew (world s)))
                (world s)).
  destruct (branches_removal_effect addCounterVar "Event added" e
              (negb (isOldEvent (ew (world s)) e)) w1) as (w' & Hw' & Heff).
  assert (Hd : dispatch cmdHandler (Added (ObjEvent e)) (world s) = Done tt w').
  { rewrite <- Hw'. reflexivity. }
  rewrite Hd. eexists. split; [reflexivity |]. cbn [afterHandler halted reporter world].
  split; [reflexivity |]. split; [reflexivity |].
  destruct Heff as (Hv & Hm & Hl & Hst & Hc & Hn & Ht & Hs).
  unfold branch_effect.
  split; [exact Hv |].
  split; [intros m; rewrite Hm; apply (f_equal (fun z => z + _)), metric_set_store |].
  split; [exact Hl |].
  split; [rewrite Hst; exact (delete_insert_eq (_store (ew (world s))) k e) |].
  split; [exact Hc |]. repeat split; assumption.
Qed.

Lemma isOldEvent_config e e' ev :
  sameConfig e e' -> isOldEvent e' ev = isOldEvent e ev.
Proof. intros (_ & _ & _ & H). unfold isOldEvent. rewrite H. reflexivity. Qed.

Lemma freshCount_config e e' es :
  sameConfig e e' -> freshCount e' es = freshCount e es.
Proof.
  intros Hc. unfold freshCount. f_equal.
  induction es as [| ev es IH]; [reflexivity |]. cbn [List.filter].
  rewrite (isOldEvent_config e e' ev Hc), IH. reflexivity.
Qed.

Lemma freshCount_cons e ev es :
  freshCount e (ev :: es) =
  ((if negb (isOldEvent e ev) then 1 else 0) + freshCount e es)%nat.
Proof. unfold freshCount. cbn [List.filter]. destruct (negb (isOldEvent e ev)); reflexivity. Qed.

(** X16: a burst of add notifications, as the first list brings them: each
    event that is not old adds one to the add counter (wrapping at 32 bits)
    and to its metric and one record to the log, each old one adds one to the
    old-events metric and nothing else; the update and delete counters do not
    move, and a store that was empty is empty again at the end. *)
Theorem add_notifications_counted (es : list Event) :
  forall s,
    halted s = None -> is_int32 (pkg.addCounter (vars (world s))) ->
    exists s',
      run cmdHandler s (addNotifications es) = Some s' /\
      halted s' = None /\
      pkg.addCounter (vars (world s')) =
        wrap32 (pkg.addCounter (vars (world s))
                + Z.of_nat (freshCount (ew (world s)) es)) /\
      pkg.updateCounter (vars (world s')) = pkg.updateCounter (vars (world s)) /\
      pkg.deleteCounter (vars (world s')) = pkg.deleteCounter (vars (world s)) /\
      addCounter (ew (world s')) =
        addCounter (ew (world s)) + Z.of_nat (freshCount (ew (world s)) es) /\
      oldEventsCounter (ew (world s')) =
        oldEventsCounter (ew (world s))
        + (Z.of_nat (length es) - Z.of_nat (freshCount (ew (world s)) es)) /\
      updateCounter (ew (world s')) = updateCounter (ew (world s)) /\
      deleteCounter (ew (world s')) = deleteCounter (ew (world s)) /\
      length (output (world s')) =
        (length (output (world s)) + freshCount (ew (world s)) es)%nat /\
      (_store (ew (world s)) = ∅ -> _store (ew (world s')) = ∅).
Proof.
  induction es as [| ev es IH]; intros s Hhalt Hint.
  - exists s. cbn [addNotifications map run]. split; [reflexivity |].
    split; [exact Hhalt |]. unfold freshCount. cbn.
    rewrite !Z.add_0_r, Nat.add_0_r. rewrite (wrap32_id _ Hint).
    repeat split. exact id.
  - destruct (deliver_added s ev Hhalt) as (s1 & Hstep & Hhalt1 & _ & Heff).
    destruct Heff as (Hv & Hm & Hl & Hst & Hc & _).
    assert (Hint1 : is_int32 (pkg.addCounter (vars (world s1)))).
    { rewrite Hv. destruct (negb (isOldEvent (ew (world s)) ev)); [| exact Hint].
      cbn. apply wrap32_range. }
    destruct (IH s1 Hhalt1 Hint1)
      as (s' & Hrun & Hhalt' & Ha & Hu & Hd & Hma & Hmo & Hmu & Hmd & Hlen & Hstore).
    exists s'. cbn [addNotifications map run]. rewrite Hstep.
    split; [exact Hrun |]. split; [exact Hhalt' |].
    rewrite (freshCount_config _ _ es Hc) in Ha, Hma, Hmo, Hlen.
    rewrite freshCount_cons.
    pose proof (Hm addMetric) as Hm1. pose proof (Hm oldEventsMetric) as Hm2.
    pose proof (Hm updateMetric) as Hm3. pose proof (Hm deleteMetric) as Hm4.
    cbn [metric] in Hm1, Hm2, Hm3, Hm4.
    rewrite Ha, Hu, Hd, Hma, Hmo, Hmu, Hmd, Hlen, Hv, Hm1, Hm2, Hm3, Hm4, Hl.
    destruct (negb (isOldEvent (ew (world s)) ev));
      cbn [store_var load metricOf Metric_eqb pkg.addCounter pkg.updateCounter
           pkg.deleteCounter length].
    + unfold add32. rewrite wrap32_add_l.
      split; [f_equal; lia |]. repeat (split; [lia |]).
      intros H. apply Hstore. rewrite Hst. cbn. rewrite H. apply delete_empty.
    + split; [f_equal; lia |]. repeat (split; [lia |]).
      intros H. apply Hstore. rewrite Hst. cbn. rewrite H. apply delete_empty.
Qed.

Lemma add_notifications_counted_witness :
  exists s',
    run cmdHandler (boot "" 10 t_start)
      (addNotifications [sampleEvent t_minus4; sampleEvent t_minus6; otherEvent t_plus1h])
      = Some s' /\
    pkg.addCounter (vars (world s')) = 2 /\
    oldEventsCounter (ew (world s')) = 1 /\
    length (output (world s')) = 2%nat /\
    _store (ew (world s')) = ∅.
Proof.
  destruct (add_notifications_counted
              [sampleEvent t_minus4; sampleEvent t_minus6; otherEvent t_plus1h]
              (boot "" 10 t_start) eq_refl
              ltac:(unfold is_int32, MinInt32, MaxInt32; cbn; lia))
    as (s' & Hrun & _ & Ha & _ & _ & _ & Ho & _ & _ & Hl & Hs).
  exists s'. split; [exact Hrun |]. split; [exact Ha |]. split; [exact Ho |].
  split; [exact Hl | exact (Hs eq_refl)].
Defined.

(** ** [deleteEvent] *)

(** X17: [deleteEvent] never aborts.  For an event it takes the event's key
    out of the store and logs nothing, and doing it again changes nothing
    more; when the store cannot make a key for the object, the store stays as
    it is and one error record says that the object could not be deleted.
    Either way it is one [Delete] call and no counter moves. *)
Theorem deleteEvent_outcome (obj : Obj) (w : World) :
  exists w',
    deleteEvent obj w = Done tt w' /\
    storeCalls w' = storeCalls w ++ [CallDelete obj] /\
    vars w' = vars w /\
    (forall m, metric m (ew w') = metric m (ew w)) /\
    match keyFunc obj with
    | Some k =>
        _store (ew w') = delete k (_store (ew w)) /\
        _store (ew w') !! k = None /\
        output w' = output w /\
        exists w'', deleteEvent obj w' = Done tt w'' /\
                    _store (ew w'') = _store (ew w') /\ output w'' = output w'
    | None =>
        _store (ew w') = _store (ew w) /\
        exists r, output w' = output w ++ [r] /\ level r = ErrorLevel /\
                  msg r = "Could not delete object"
    end.
Proof.
  destruct obj as [e | ty]; run_handler; cbn [keyFunc].
  - eexists. split; [reflexivity |]. cbn.
    split; [reflexivity |]. split; [reflexivity |].
    split; [intros m; apply metric_set_store |].
    split; [reflexivity |]. split; [apply lookup_delete_eq |].
    split; [reflexivity |].
    eexists. split; [reflexivity |]. cbn. split; [| reflexivity].
    apply delete_id, lookup_delete_eq.
  - eexists. split; [reflexivity |]. cbn.
    split; [reflexivity |]. split; [reflexivity |]. split; [reflexivity |].
    split; [reflexivity |]. eexists. split; [reflexivity |]. split; reflexivity.
Qed.

(** * The classification, revision by revision *)

(** C1, as the code has it: in eventwatcher.go an event strictly after the
    start time is not old, one at or before it is old exactly when the start
    time minus its last timestamp exceeds five minutes (exactly five minutes
    is not old), and [OnAdd] takes its branch by that answer.  In part_001
    an event strictly after the start time is let through as well, but one at
    or before it is old exactly when the current time minus its last timestamp
    is five minutes or more (exactly five minutes is old), and [OnAdd] takes
    its branch by that test. *)
Theorem C1_classification_by_revision (w : World) (E : Event) :
  time.wf (LastTimestamp E) -> time.wf (_startTime (ew w)) ->
  let last := time.instant (LastTimestamp E) in
  let startTime := time.instant (_startTime (ew w)) in
  let clock := time.instant (now w) in
  ((last > startTime -> isOldEvent (ew w) E = false) /\
   (last <= startTime ->
      (isOldEvent (ew w) E = true <-> startTime - last > 5 * time.Minute)) /\
   (startTime - last = 5 * time.Minute -> isOldEvent (ew w) E = false) /\
   (exists w', OnAdd (ObjEvent E) w = Done tt w' /\
               branch_effect addCounterVar (negb (isOldEvent (ew w) E)) true
                 (ObjEvent E) w w')) /\
  ((last > startTime -> inlineFresh w E = true) /\
   (last <= startTime ->
      (inlineFresh w E = false <-> clock - last >= 5 * time.Minute)) /\
   (exists w', Part001.OnAdd (ObjEvent E) w = Done tt w' /\
               branch_effect addCounterVar (inlineFresh w E) true (ObjEvent E) w w')).
Proof.
  intros Hl Hs last startTime clock.
  destruct (C1_isOldEvent_classification (ew w) E Hl Hs) as (A1 & A2 & A3).
  pose proof (inlineFresh_instants w E Hl Hs) as Hin.
  fold last startTime clock in Hin.
  split.
  - split; [exact A1 |]. split; [exact A2 |]. split; [exact A3 |].
    exact (branches_removal_effect addCounterVar "Event added" E
             (negb (isOldEvent (ew w) E)) w).
  - split; [intros H; apply Hin; left; exact H |]. split.
    + intros Hle. destruct (inlineFresh w E).
      * split; [discriminate |]. intros Hge.
        destruct (proj1 Hin eq_refl) as [H | H]; lia.
      * split; [| reflexivity]. intros _.
        destruct (Z_lt_ge_dec (clock - last) (5 * time.Minute)) as [Hlt | Hge];
          [| exact Hge].
        assert (false = true) by (apply Hin; right; exact Hlt). discriminate.
    + exact (branches_removal_effect addCounterVar "Event added" E (inlineFresh w E) w).
Qed.

Lemma C1_classification_by_revision_witness :
  isOldEvent (ew w_boot) (sampleEvent t_minus5) = false /\
  inlineFresh w_boot (sampleEvent t_minus5) = false /\
  inlineFresh w_boot (sampleEvent t_plus1h) = true.
Proof.
  assert (Hs : time.wf (_startTime (ew w_boot))) by (unfold time.wf; cbn; lia).
  assert (Hl : forall t, 0 <= time.nsec t < 1000000000 ->
                         time.wf (LastTimestamp (sampleEvent t))) by (intros t H; exact H).
  destruct (C1_classification_by_revision w_boot (sampleEvent t_minus5)
              (Hl t_minus5 ltac:(cbn; lia)) Hs) as ((_ & _ & A3 & _) & (_ & B2 & _)).
  destruct (C1_classification_by_revision w_boot (sampleEvent t_plus1h)
              (Hl t_plus1h ltac:(cbn; lia)) Hs) as (_ & (B1 & _ & _)).
  split; [apply A3; vm_compute; reflexivity |].
  split; [apply B2; vm_compute; discriminate | apply B1; vm_compute; reflexivity].
Defined.

(** C1, as stated, fails on part_001: an event exactly five minutes before
    the start time, handled at the start time, is counted as old and not
    logged; and an event four minutes before the start time is counted as old
    when it is handled an hour later. *)
Lemma C1_part001_counterexample :
  time.instant (_startTime (ew w_boot)) - time.instant (LastTimestamp (sampleEvent t_minus5))
    = 5 * time.Minute /\
  oldEventsCounter (ew (final (Part001.OnAdd (ObjEvent (sampleEvent t_minus5)) w_boot))) = 1 /\
  pkg.addCounter (vars (final (Part001.OnAdd (ObjEvent (sampleEvent t_minus5)) w_boot))) = 0 /\
  output (final (Part001.OnAdd (ObjEvent (sampleEvent t_minus5)) w_boot)) = [] /\
  time.instant (_startTime (ew w_hour_later))
    - time.instant (LastTimestamp (sampleEvent t_minus4)) = 4 * time.Minute /\
  oldEventsCounter
    (ew (final (Part001.OnAdd (ObjEvent (sampleEvent t_minus4)) w_hour_later))) = 1 /\
  output (final (Part001.OnAdd (ObjEvent (sampleEvent t_minus4)) w_hour_later)) = [].
Proof. vm_compute. repeat split. Qed.

Lemma inlineFresh_inputs w1 w2 e1 e2 :
  time.Equal (_startTime (ew w1)) (_startTime (ew w2)) = true ->
  time.Equal (LastTimestamp e1) (LastTimestamp e2) = true ->
  time.Equal (now w1) (now w2) = true ->
  inlineFresh w1 e1 = inlineFresh w2 e2.
Proof.
  intros Hs Hl Hn.
  apply Equal_fields in Hs as [Hs1 Hs2]. apply Equal_fields in Hl as [Hl1 Hl2].
  apply Equal_fields in Hn as [Hn1 Hn2].
  unfold inlineFresh, time.After, time.Sub, time.instant, time.UTC;
    cbn [time.sec time.nsec].
  rewrite Hs1, Hs2, Hl1, Hl2, Hn1, Hn2. reflexivity.
Qed.

(** C2, as the code has it: in eventwatcher.go two handler calls in worlds
    with the same start time, about events with the same last timestamp, take
    the same branch, whatever the clocks, the counters, the stores and the
    logs of the two worlds are, and each changes its world by that branch
    alone.  In part_001 this holds only when the two clocks show the same time
    as well: the current time is a third input of the classification. *)
Theorem C2_classification_inputs (w1 w2 : World) (e1 e2 : Event) :
  time.Equal (_startTime (ew w1)) (_startTime (ew w2)) = true ->
  time.Equal (LastTimestamp e1) (LastTimestamp e2) = true ->
  (isOldEvent (ew w1) e1 = isOldEvent (ew w2) e2 /\
   exists (fresh : bool) w1' w2',
     OnAdd (ObjEvent e1) w1 = Done tt w1' /\
     OnAdd (ObjEvent e2) w2 = Done tt w2' /\
     branch_effect addCounterVar fresh true (ObjEvent e1) w1 w1' /\
     branch_effect addCounterVar fresh true (ObjEvent e2) w2 w2') /\
  (time.Equal (now w1) (now w2) = true ->
   inlineFresh w1 e1 = inlineFresh w2 e2 /\
   exists (fresh : bool) w1' w2',
     Part001.OnAdd (ObjEvent e1) w1 = Done tt w1' /\
     Part001.OnAdd (ObjEvent e2) w2 = Done tt w2' /\
     branch_effect addCounterVar fresh true (ObjEvent e1) w1 w1' /\
     branch_effect addCounterVar fresh true (ObjEvent e2) w2 w2').
Proof.
  intros Hs Hl.
  pose proof (C2_isOldEvent_pure w1 w2 e1 e2 Hs Hl) as Hsame.
  split.
  - split; [exact Hsame |].
    destruct (branches_removal_effect addCounterVar "Event added" e1
                (negb (isOldEvent (ew w1) e1)) w1) as (w1' & H1 & E1).
    destruct (branches_removal_effect addCounterVar "Event added" e2
                (negb (isOldEvent (ew w2) e2)) w2) as (w2' & H2 & E2).
    exists (negb (isOldEvent (ew w1) e1)), w1', w2'.
    split; [exact H1 |]. split; [exact H2 |]. split; [exact E1 |].
    rewrite Hsame. exact E2.
  - intros Hn. pose proof (inlineFresh_inputs w1 w2 e1 e2 Hs Hl Hn) as Hin.
    split; [exact Hin |].
    destruct (branches_removal_effect addCounterVar "Event added" e1
                (inlineFresh w1 e1) w1) as (w1' & H1 & E1).
    destruct (branches_removal_effect addCounterVar "Event added" e2
                (inlineFresh w2 e2) w2) as (w2' & H2 & E2).
    exists (inlineFresh w1 e1), w1', w2'.
    split; [exact H1 |]. split; [exact H2 |]. split; [exact E1 |].
    rewrite Hin. exact E2.
Qed.

Lemma C2_classification_inputs_witness :
  now w_boot <> now w_late /\ vars w_boot <> vars w_late /\
  isOldEvent (ew w_boot) (sampleEvent t_minus4) =
  isOldEvent (ew w_late) (otherEvent (time.UTC t_minus4)).
Proof.
  split; [discriminate | split; [discriminate |]].
  exact (proj1 (proj1 (C2_classification_inputs w_boot w_late (sampleEvent t_minus4)
                         (otherEvent (time.UTC t_minus4)) eq_refl eq_refl))).
Defined.

(** C2, as stated, fails on part_001: the same event under the same start
    time is let through at the start time and counted as old an hour later. *)
Lemma C2_part001_clock_counterexample :
  time.Equal (_startTime (ew w_boot)) (_startTime (ew w_hour_later)) = true /\
  inlineFresh w_boot (sampleEvent t_minus4) = true /\
  inlineFresh w_hour_later (sampleEvent t_minus4) = false /\
  addCounter (ew (final (Part001.OnAdd (ObjEvent (sampleEvent t_minus4)) w_boot))) = 1 /\
  oldEventsCounter
    (ew (final (Part001.OnAdd (ObjEvent (sampleEvent t_minus4)) w_boot))) = 0 /\
  addCounter
    (ew (final (Part001.OnAdd (ObjEvent (sampleEvent t_minus4)) w_hour_later))) = 0 /\
  oldEventsCounter
    (ew (final (Part001.OnAdd (ObjEvent (sampleEvent t_minus4)) w_hour_later))) = 1.
Proof. vm_compute. repeat split. Qed.

(** * A delta across the wrap *)

(** The log of [acts_across_wrap], started with the add counter at its
    largest value: the cumulative value goes from 2147483647 to -2147483648
    and the delta shown is 1. *)
Lemma delta_across_wrap_from_full :
  exists s,
    run cmdHandler s_full acts_across_wrap = Some s /\
    cumulatives (output (world s)) = [(2147483647, 0, 0); (-2147483648, 0, 0)] /\
    deltas (output (world s)) = [(2147483647, 0, 0); (1, 0, 0)].
Proof.
  eexists. split; [vm_compute; reflexivity |]. split; vm_compute; reflexivity.
Qed.

Lemma run_app h acts1 acts2 :
  forall s,
    run h s (acts1 ++ acts2) =
    match run h s acts1 with
    | Some s1 => run h s1 acts2
    | None => None
    end.
Proof.
  induction acts1 as [| a acts1 IH]; intros s; [reflexivity |].
  cbn [app run]. destruct (step h s a) as [s1 |]; [apply IH | reflexivity].
Qed.

(** Reported add notifications, one after the other, move the add counter and
    leave the reporter, the ticker and the other two counters as they are. *)
Lemma adds_keep_the_rest e (n : nat) :
  forall s,
    halted s = None ->
    isOldEvent (ew (world s)) e = false ->
    is_int32 (pkg.addCounter (vars (world s))) ->
    exists s',
      run cmdHandler s (repeat (Deliver (Added (ObjEvent e))) n) = Some s' /\
      halted s' = None /\ reporter s' = reporter s /\
      ticker (world s') = ticker (world s) /\
      sameConfig (ew (world s)) (ew (world s')) /\
      pkg.addCounter (vars (world s')) =
        wrap32 (pkg.addCounter (vars (world s)) + Z.of_nat n) /\
      pkg.updateCounter (vars (world s')) = pkg.updateCounter (vars (world s)) /\
      pkg.deleteCounter (vars (world s')) = pkg.deleteCounter (vars (world s)).
Proof.
  induction n as [| n IH]; intros s Hhalt Hfresh Hint.
  - exists s. cbn [repeat run]. split; [reflexivity |]. split; [exact Hhalt |].
    split; [reflexivity |]. split; [reflexivity |]. split; [apply sameConfig_refl |].
    rewrite Z.add_0_r, (wrap32_id _ Hint). repeat split.
  - destruct (deliver_added s e Hhalt) as (s1 & Hstep & Hhalt1 & Hrep1 & Heff).
    rewrite Hfresh in Heff. cbn [negb] in Heff.
    destruct Heff as (Hv & _ & _ & _ & Hc & _ & Ht & _).
    assert (Hfresh1 : isOldEvent (ew (world s1)) e = false).
    { rewrite (isOldEvent_config _ _ e Hc). exact Hfresh. }
    assert (Hint1 : is_int32 (pkg.addCounter (vars (world s1)))).
    { rewrite Hv. cbn. apply wrap32_range. }
    destruct (IH s1 Hhalt1 Hfresh1 Hint1)
      as (s' & Hrun & Hhalt' & Hrep' & Ht' & Hc' & Ha & Hu & Hd).
    exists s'. cbn [repeat run]. rewrite Hstep.
    split; [exact Hrun |]. split; [exact Hhalt' |]. split; [congruence |].
    split; [congruence |]. split; [exact (sameConfig_trans _ _ _ Hc Hc') |].
    rewrite Ha, Hu, Hd, Hv. cbn [store_var load pkg.addCounter pkg.updateCounter
                                   pkg.deleteCounter].
    unfold add32. rewrite wrap32_add_l. split; [f_equal; lia |]. split; reflexivity.
Qed.

(** A tick taken by the reporter adds the current counters to the cumulative
    values in the log. *)
Lemma tick_taken h s pa pu pd :
  halted s = None -> reporter s = Part001.Selecting pa pu pd ->
  Part001.ready Part001.tickerCase (world s) = true ->
  exists s',
    step h s (Select Part001.tickerCase) = Some s' /\
    halted s' = None /\
    reporter s' = Part001.Selecting (pkg.addCounter (vars (world s)))
                    (pkg.updateCounter (vars (world s)))
                    (pkg.deleteCounter (vars (world s))) /\
    cumulatives (output (world s')) =
      cumulatives (output (world s))
      ++ [(pkg.addCounter (vars (world s)), pkg.updateCounter (vars (world s)),
           pkg.deleteCounter (vars (world s)))] /\
    vars (world s') = vars (world s) /\ ew (world s') = ew (world s) /\
    ticker (world s') = match ticker (world s) with
                        | Ticking _ => Ticking false
                        | Stopped _ => Stopped false
                        | NoTicker => NoTicker
                        end.
Proof.
  intros Hhalt Hrep Hready. unfold step. rewrite Hhalt, Hrep, Hready.
  destruct (select_tick pa pu pd (world s)) as (w' & -> & Ho & Hv & He & _ & Ht).
  eexists. split; [reflexivity |]. cbn [afterReporter halted reporter world].
  split; [reflexivity |]. split; [reflexivity |].
  split; [rewrite Ho, cumulatives_app; reflexivity |].
  split; [exact Hv |]. split; [exact He | exact Ht].
Qed.

(** From a process that has not started its reporter, with a valid stats
    interval: a snapshot, one more reported add notification and a second
    snapshot put two cumulative triples in the log, the add counter before
    and after the notification. *)
Lemma two_snapshots_around_an_add s e :
  halted s = None -> reporter s = Part001.Idle ->
  0 < statsIntervalSeconds (ew (world s)) <= maxStatsSeconds ->
  isOldEvent (ew (world s)) e = false ->
  exists s',
    run cmdHandler s
      [ Spawn; Fire; Select Part001.tickerCase; Deliver (Added (ObjEvent e));
        Fire; Select Part001.tickerCase ] = Some s' /\
    cumulatives (output (world s')) =
      cumulatives (output (world s))
      ++ [ (pkg.addCounter (vars (world s)), pkg.updateCounter (vars (world s)),
            pkg.deleteCounter (vars (world s)));
           (add32 (pkg.addCounter (vars (world s))) 1,
            pkg.updateCounter (vars (world s)), pkg.deleteCounter (vars (world s))) ].
Proof.
  intros Hhalt Hrep Hint Hfresh.
  (* Spawn *)
  assert (Hpos : 0 < wrap64 (statsIntervalSeconds (ew (world s)) * time.Second)).
  { unfold maxStatsSeconds in Hint. unfold time.Second, time.Nanosecond.
    rewrite wrap64_id; change (2 ^ 63) with 9223372036854775808; lia. }
  pose (s1 := {| world := write_log (infoRecord (world s) "Starting stats" [])
                            (set_ticker (Ticking false) (world s));
                 reporter := Part001.Selecting 0 0 0; halted := None |}).
  assert (H1 : step cmdHandler s Spawn = Some s1).
  { unfold step. rewrite Hhalt, Hrep, (enter_running _ (proj1 Hint) Hpos). reflexivity. }
  (* Fire *)
  pose (s2 := {| world := set_ticker (Ticking true) (world s1);
                 reporter := reporter s1; halted := None |}).
  assert (H2 : step cmdHandler s1 Fire = Some s2) by reflexivity.
  (* the first tick *)
  destruct (tick_taken cmdHandler s2 0 0 0 eq_refl eq_refl eq_refl)
    as (s3 & H3 & Hhalt3 & Hrep3 & Hc3 & Hv3 & He3 & Ht3).
  (* the add notification *)
  assert (Hfresh3 : isOldEvent (ew (world s3)) e = false) by (rewrite He3; exact Hfresh).
  destruct (deliver_added s3 e Hhalt3) as (s4 & H4 & Hhalt4 & Hrep4 & Heff).
  rewrite Hfresh3 in Heff. cbn [negb] in Heff.
  destruct Heff as (Hv4 & _ & _ & _ & _ & _ & Ht4 & _).
  assert (Hc4 : cumulatives (output (world s4)) = cumulatives (output (world s3))).
  { assert (Hw : world s4 = final (dispatch cmdHandler (Added (ObjEvent e)) (world s3))).
    { unfold step in H4. rewrite Hhalt3 in H4. injection H4 as <-.
      apply final_afterHandler. }
    destruct (dispatch_frame cmdHandler (Added (ObjEvent e)) (world s3)
                (or_introl eq_refl)) as ((l & Hl & Hmsgs) & _).
    rewrite Hw, Hl, cumulatives_app.
    destruct (handler_records l Hmsgs) as (_ & -> & _). apply app_nil_r. }
  (* Fire *)
  assert (Htick4 : ticker (world s4) = Ticking false).
  { rewrite Ht4, Ht3. reflexivity. }
  pose (s5 := {| world := set_ticker (Ticking true) (world s4);
                 reporter := reporter s4; halted := None |}).
  assert (H5 : step cmdHandler s4 Fire = Some s5).
  { unfold step. rewrite Hhalt4, Htick4. reflexivity. }
  (* the second tick *)
  destruct (tick_taken cmdHandler s5 _ _ _ eq_refl
              (eq_trans Hrep4 Hrep3) eq_refl)
    as (s6 & H6 & _ & _ & Hc6 & _).
  exists s6. cbn [run]. rewrite H1, H2, H3, H4, H5, H6.
  split; [reflexivity |].
  rewrite Hc6. cbn [s5 world set_ticker output vars].
  rewrite Hc4, Hc3, Hv4, Hv3. cbn [s2 s1 world set_ticker write_log output vars].
  rewrite cumulatives_app.
  change (cumulatives [infoRecord (world s) "Starting stats" []]) with (@nil (Z * Z * Z)).
  rewrite app_nil_r, <- app_assoc. reflexivity.
Qed.

(** C5, as stated, fails: after 2147483647 reported add notifications, a
    snapshot, one more reported add notification and a second snapshot, the
    log shows the cumulative add counter going from 2147483647 to -2147483648
    and a delta of 1, which is not the second minus the first. *)
Lemma C5_delta_wraps_counterexample :
  exists s,
    run cmdHandler (boot "" 10 t_start)
      (repeat (Deliver (Added (ObjEvent (sampleEvent t_minus4)))) (Z.to_nat MaxInt32)
       ++ acts_across_wrap) = Some s /\
    cumulatives (output (world s)) = [(2147483647, 0, 0); (-2147483648, 0, 0)] /\
    deltas (output (world s)) = [(2147483647, 0, 0); (1, 0, 0)] /\
    -2147483648 - 2147483647 <> 1.
Proof.
  destruct (adds_keep_the_rest (sampleEvent t_minus4) (Z.to_nat MaxInt32)
              (boot "" 10 t_start) eq_refl eq_refl
              ltac:(unfold is_int32, MinInt32, MaxInt32; cbn; lia))
    as (s0 & Hrun0 & Hhalt0 & Hrep0 & _ & Hc0 & Ha0 & Hu0 & Hd0).
  rewrite Z2Nat.id in Ha0 by (unfold MaxInt32; lia).
  change (pkg.addCounter (vars (world (boot "" 10 t_start)))) with 0 in Ha0.
  change (wrap32 (0 + MaxInt32)) with 2147483647 in Ha0.
  change (pkg.updateCounter (vars (world (boot "" 10 t_start)))) with 0 in Hu0.
  change (pkg.deleteCounter (vars (world (boot "" 10 t_start)))) with 0 in Hd0.
  change (reporter (boot "" 10 t_start)) with Part001.Idle in Hrep0.
  assert (Hfresh0 : isOldEvent (ew (world s0)) (sampleEvent t_minus4) = false).
  { rewrite (isOldEvent_config _ _ (sampleEvent t_minus4) Hc0). reflexivity. }
  assert (Hint0 : 0 < statsIntervalSeconds (ew (world s0)) <= maxStatsSeconds).
  { destruct Hc0 as (_ & -> & _). unfold maxStatsSeconds. cbn. lia. }
  assert (Hcum0 : cumulatives (output (world s0)) = []).
  { pose proof (stats_inv_run cmdHandler _ (or_introl eq_refl) _ s0
                  (stats_inv_boot "" 10 t_start) Hrun0) as (_ & _ & _ & Hr).
    rewrite Hrep0 in Hr. exact Hr. }
  destruct (two_snapshots_around_an_add s0 (sampleEvent t_minus4) Hhalt0 Hrep0 Hint0
              Hfresh0) as (s & Hrun & Hcum).
  rewrite Hcum0, Ha0, Hu0, Hd0 in Hcum. cbn [app] in Hcum.
  change (add32 2147483647 1) with (-2147483648) in Hcum.
  assert (Hall : run cmdHandler (boot "" 10 t_start)
                   (repeat (Deliver (Added (ObjEvent (sampleEvent t_minus4))))
                      (Z.to_nat MaxInt32) ++ acts_across_wrap) = Some s).
  { rewrite run_app, Hrun0. exact Hrun. }
  exists s. split; [exact Hall |]. split; [exact Hcum |]. split; [| lia].
  pose proof (stats_inv_run cmdHandler _ (or_introl eq_refl) _ s
                (stats_inv_boot "" 10 t_start) Hall) as (Hd & _).
  rewrite Hd, Hcum. reflexivity.
Qed.
